(** * Verification of the PDF splitter core (pdf_splitter.py, file_manager.py,
      printer_manager.py) over a shallow embedding of the Python sources. *)

From Stdlib Require Import ZArith Lia List Bool Ascii String Arith.
Import ListNotations.
Open Scope Z_scope.

(** ** Python built-ins *)

(** Length of [range(start, stop, step)] for a non-zero step (CPython's
    [compute_range_length]). *)
Definition py_range_len (start stop step : Z) : Z :=
  if 0 <? step then Z.max 0 ((stop - start + step - 1) / step)
  else Z.max 0 ((start - stop - step - 1) / (- step)).

(** [range(start, stop, step)]: [None] models the [ValueError] raised for a
    zero step. *)
Definition py_range (start stop step : Z) : option (list Z) :=
  if step =? 0 then None
  else Some (map (fun k => start + Z.of_nat k * step)
                 (seq 0 (Z.to_nat (py_range_len start stop step)))).

(** ** pdf_splitter.py *)

(** The part of a [PdfReader] the splitter uses: its page list. *)
Record PdfReader := { pages : list Z }.

(** [PDFSplitter] state: [self.input_file], [self.reader], [self.total_pages]. *)
Record PDFSplitter := {
  input_file : string;
  reader : option PdfReader;
  total_pages : Z
}.

(** [PDFSplitter.load_pdf] on a readable file: [None] when the file cannot be
    read (the [except] branch); the flag is the boolean result. *)
Definition load_pdf (s : PDFSplitter) (read : option PdfReader)
  : PDFSplitter * bool :=
  match read with
  | None => (s, false)
  | Some r =>
      let s' := {| input_file := input_file s; reader := Some r;
                   total_pages := Z.of_nat (List.length (pages r)) |} in
      (s', negb (Z.of_nat (List.length (pages r)) =? 0))
  end.

(** [PDFSplitter._get_page_ranges]; [None] is the [ValueError] of
    [range] when [pages_per_split = 0]. *)
Definition _get_page_ranges (s : PDFSplitter) (pages_per_split : Z)
  : option (list (Z * Z)) :=
  match py_range 0 (total_pages s) pages_per_split with
  | None => None
  | Some starts =>
      Some (map (fun start =>
                   let end_ := Z.min (start + pages_per_split - 1)
                                     (total_pages s - 1) in
                   (start + 1, end_ + 1)) starts)
  end.

(** Decimal rendering of a natural number (little-endian digit list). *)
Fixpoint digits_le_aux (fuel n : nat) : list nat :=
  match fuel with
  | O => [n]
  | S f => if Nat.ltb n 10 then [n]
           else Nat.modulo n 10 :: digits_le_aux f (Nat.div n 10)
  end.

Definition digits_le (n : nat) : list nat := digits_le_aux n n.

Definition digit_char (d : nat) : ascii := ascii_of_nat (48 + d).

(** [str(n)] for [n >= 0]. *)
Definition str_nat (n : nat) : string :=
  string_of_list_ascii (map digit_char (rev (digits_le n))).

(** [str(z)] for a Python int. *)
Definition str_int (z : Z) : string :=
  if z <? 0 then ("-" ++ str_nat (Z.to_nat (- z)))%string
  else str_nat (Z.to_nat z).

(** [PDFSplitter.validate_split_parameters]. *)
Definition validate_split_parameters (s : PDFSplitter) (pages_per_split : Z)
  : bool * string :=
  if pages_per_split <=? 0 then
    (false, "Pages per split must be greater than 0"%string)
  else if total_pages s <=? pages_per_split then
    (false, ("Pages per split (" ++ str_int pages_per_split
             ++ ") should be less than total pages ("
             ++ str_int (total_pages s) ++ ")")%string)
  else (true, ""%string).

(** The dictionary returned by [PDFSplitter.calculate_split_info]. *)
Record SplitInfo := {
  info_total_pages : Z;
  info_pages_per_split : Z;
  num_splits : Z;
  last_split_pages : Z;
  ranges : list (Z * Z)
}.

(** [PDFSplitter.calculate_split_info]; [None] is the [ZeroDivisionError]
    of [//] and [%] (or the [ValueError] of [range]) at [pages_per_split = 0].
    Python's [//] and [%] round towards minus infinity, as [Z.div] and
    [Z.modulo] do. *)
Definition calculate_split_info (s : PDFSplitter) (pages_per_split : Z)
  : option SplitInfo :=
  if pages_per_split =? 0 then None
  else
    let num_splits := (total_pages s + pages_per_split - 1) / pages_per_split in
    let last0 := total_pages s mod pages_per_split in
    let last := if last0 =? 0 then pages_per_split else last0 in
    match _get_page_ranges s pages_per_split with
    | None => None
    | Some rs =>
        Some {| info_total_pages := total_pages s;
                info_pages_per_split := pages_per_split;
                num_splits := num_splits;
                last_split_pages := last;
                ranges := rs |}
    end.

(** ** file_manager.py *)

(** [FileManager.get_split_ranges]. *)
Definition get_split_ranges (total_pages pages_per_split : Z)
  : option (list (Z * Z)) :=
  match py_range 0 total_pages pages_per_split with
  | None => None
  | Some starts =>
      Some (map (fun start =>
                   let end_ := Z.min (start + pages_per_split - 1)
                                     (total_pages - 1) in
                   (start + 1, end_ + 1)) starts)
  end.

(** ** Paths ([pathlib.Path]) *)

(** A path as [parent / name]; [name] is the last component. *)
Record path := { parent : string; name : string }.

(** [directory / filename]. *)
Definition path_div (dir : string) (filename : string) : path :=
  {| parent := dir; name := filename |}.

(** [str.rfind(c)] on [s[i:]], with the index of the last hit so far. *)
Fixpoint rfind_from (s : string) (c : ascii) (i : nat) (acc : option nat)
  : option nat :=
  match s with
  | EmptyString => acc
  | String c' s' => rfind_from s' c (S i) (if Ascii.eqb c' c then Some i else acc)
  end.

Definition rfind (s : string) (c : ascii) : option nat := rfind_from s c 0 None.

(** [PurePath.suffix]: [name[i:]] if [0 < i < len(name) - 1] for
    [i = name.rfind('.')], else [''] . *)
Definition path_suffix (p : path) : string :=
  let nm := name p in
  match rfind nm "." with
  | Some i => if Nat.ltb 0 i && Nat.ltb i (String.length nm - 1)
              then substring i (String.length nm - i) nm else EmptyString
  | None => EmptyString
  end.

(** [PurePath.stem]: [name[:i]] under the same condition, else [name]. *)
Definition path_stem (p : path) : string :=
  let nm := name p in
  match rfind nm "." with
  | Some i => if Nat.ltb 0 i && Nat.ltb i (String.length nm - 1)
              then substring 0 i nm else nm
  | None => nm
  end.

Definition path_eqb (p q : path) : bool :=
  String.eqb (parent p) (parent q) && String.eqb (name p) (name q).

(** [f"{n:03d}"] for [n >= 0]: [str(n)] left-padded with zeros to width 3. *)
Definition fmt03 (n : nat) : string :=
  (string_of_list_ascii (repeat "0"%char (3 - String.length (str_nat n)))
   ++ str_nat n)%string.

(** ** file_manager.py: names *)

(** [FileManager] state: [self.output_dir] and [self.base_name]. *)
Record FileManager := { output_dir : string; base_name : string }.

(** [FileManager.__init__]: the output directory defaults to the input's
    parent when [output_dir] is [None] or empty; the base name is the input's
    stem. *)
Definition FileManager_init (input_file : path) (output_dir : option string)
  : FileManager :=
  {| output_dir := match output_dir with
                   | Some d => if String.eqb d "" then parent input_file else d
                   | None => parent input_file
                   end;
     base_name := path_stem input_file |}.

(** The [i]-th name of the loop of [generate_output_filenames] (0-based [i]). *)
Definition part_path (fm : FileManager) (i : nat) : path :=
  path_div (output_dir fm)
           (base_name fm ++ "_part_" ++ fmt03 (i + 1) ++ ".pdf")%string.

(** [FileManager.generate_output_filenames]; [None] is the
    [ZeroDivisionError] at [pages_per_split = 0]. *)
Definition generate_output_filenames (fm : FileManager) (total_pages pages_per_split : Z)
  : option (list path) :=
  if pages_per_split =? 0 then None
  else
    let num_splits := (total_pages + pages_per_split - 1) / pages_per_split in
    Some (map (part_path fm) (seq 0 (Z.to_nat num_splits))).

(** One step of the [while] loop of [handle_filename_conflicts]: the name
    built from the original path's stem and suffix and [counter]. *)
Definition conflict_name (original_path : path) (counter : nat) : path :=
  path_div (parent original_path)
           (path_stem original_path ++ "_" ++ str_nat counter
            ++ path_suffix original_path)%string.

Section Conflicts.

(** The storage existence predicate [Path.exists], fixed during the call. *)
Variable exists_ : path -> bool.

(** [while file_path.exists(): ...] with [counter] and [file_path]; the
    [fuel] bounds the iterations, [None] meaning it ran out. *)
Fixpoint resolve_loop (fuel : nat) (original_path : path) (counter : nat)
         (file_path : path) : option path :=
  if exists_ file_path then
    match fuel with
    | O => None
    | S f => resolve_loop f original_path (S counter)
                          (conflict_name original_path counter)
    end
  else Some file_path.

(** [FileManager.handle_filename_conflicts]. *)
Fixpoint handle_filename_conflicts (fuel : nat) (output_files : list path)
  : option (list path) :=
  match output_files with
  | [] => Some []
  | file_path :: rest =>
      match resolve_loop fuel file_path 1 file_path with
      | None => None
      | Some confirmed =>
          match handle_filename_conflicts fuel rest with
          | None => None
          | Some confirmed_rest => Some (confirmed :: confirmed_rest)
          end
      end
  end.

End Conflicts.

(** A storage snapshot: the finite list of paths present. *)
Definition snapshot_exists (existing : list path) (q : path) : bool :=
  existsb (path_eqb q) existing.

(** ** pdf_splitter.py: writing the parts *)

(** [lst[i]] on a Python list: negative indices count from the end; [None] is
    the [IndexError]. *)
Definition py_index {A : Type} (l : list A) (i : Z) : option A :=
  if i <? 0 then
    (if Z.of_nat (List.length l) + i <? 0 then None
     else nth_error l (Z.to_nat (Z.of_nat (List.length l) + i)))
  else nth_error l (Z.to_nat i).

(** All values, or [None] at the first missing one. *)
Fixpoint opt_all {A : Type} (l : list (option A)) : option (list A) :=
  match l with
  | [] => Some []
  | None :: _ => None
  | Some x :: rest =>
      match opt_all rest with
      | None => None
      | Some xs => Some (x :: xs)
      end
  end.

(** [for page_num in range(start_page - 1, end_page):
       writer.add_page(self.reader.pages[page_num])]: the pages added. *)
Definition extract_pages (reader_pages : list Z) (start_page end_page : Z)
  : option (list Z) :=
  match py_range (start_page - 1) end_page 1 with
  | None => None
  | Some page_nums => opt_all (map (py_index reader_pages) page_nums)
  end.

Section Split.

(** An exception raised by [writer.add_page] while building part [i]
    (a corrupt page, say). *)
Variable add_page_fails : nat -> bool.
(** An exception raised by [open(output_file, 'wb')] or [writer.write] for
    part [i] (permission, disk full, ...). *)
Variable write_fails : nat -> path -> bool.

(** The [for i, (start_page, end_page) in enumerate(ranges)] loop inside the
    [try] of [split_pdf]: the files written, paired with their pages, and
    [False] as soon as an exception reaches the [except]. *)
Fixpoint split_loop (reader_pages : list Z) (output_files : list path) (i : nat)
         (rs : list (Z * Z)) : list (path * list Z) * bool :=
  match rs with
  | [] => ([], true)
  | (start_page, end_page) :: rest =>
      match extract_pages reader_pages start_page end_page with
      | None => ([], false)
      | Some added =>
          if add_page_fails i then ([], false)
          else
            match nth_error output_files i with
            | None => ([], false)
            | Some output_file =>
                if write_fails i output_file then ([], false)
                else
                  let (written, ok) := split_loop reader_pages output_files (S i) rest in
                  ((output_file, added) :: written, ok)
            end
      end
  end.

(** [PDFSplitter.split_pdf] (no progress callback). *)
Definition split_pdf (s : PDFSplitter) (pages_per_split : Z)
           (output_files : list path) : list (path * list Z) * bool :=
  match reader s with
  | None => ([], false)
  | Some r =>
      match _get_page_ranges s pages_per_split with
      | None => ([], false)
      | Some rs => split_loop (pages r) output_files 0 rs
      end
  end.

End Split.

(** ** printer_manager.py *)

(** [str(path)]. *)
Definition path_str (p : path) : string :=
  if String.eqb (parent p) "." || String.eqb (parent p) "" then name p
  else if String.eqb (parent p) "/" then ("/" ++ name p)%string
  else (parent p ++ "/" ++ name p)%string.

(** Python dict assignment [d[k] = v] on an insertion-ordered dict: an
    existing key keeps its place, a new key goes last. *)
Definition dict_set {V : Type} (d : list (string * V)) (k : string) (v : V)
  : list (string * V) :=
  if existsb (fun kv => String.eqb (fst kv) k) d
  then map (fun kv => if String.eqb (fst kv) k then (k, v) else kv) d
  else d ++ [(k, v)].

Section Printing.

(** [self.print_file(file_path, printer_name, print_options)] at the [i]-th
    call: its [(success, message)]. *)
Variable print_file : nat -> path -> bool * string.

(** The loop of [print_multiple_files]: the files dispatched, in call order,
    and the [results] dict. *)
Fixpoint print_loop (i : nat) (file_paths : list path)
         (results : list (string * (bool * string)))
  : list path * list (string * (bool * string)) :=
  match file_paths with
  | [] => ([], results)
  | file_path :: rest =>
      let (success, message) := print_file i file_path in
      let results' := dict_set results (path_str file_path) (success, message) in
      let (dispatched, final) := print_loop (S i) rest results' in
      (file_path :: dispatched, final)
  end.

(** [PrinterManager.print_multiple_files] (no progress callback). *)
Definition print_multiple_files (file_paths : list path)
  : list path * list (string * (bool * string)) :=
  print_loop 0 file_paths [].

End Printing.

(** ** pdf_splitter.py: extracting one range *)

Section Extract.

(** An exception raised by [writer.add_page] during the extraction. *)
Variable add_page_raises : bool.
(** An exception raised by [open(output_file, 'wb')] or [writer.write]. *)
Variable write_raises : path -> bool.

(** [PDFSplitter.extract_page_range]: the file written with its pages, and
    the boolean result. *)
Definition extract_page_range (s : PDFSplitter) (start_page end_page : Z)
           (output_file : path) : list (path * list Z) * bool :=
  match reader s with
  | None => ([], false)
  | Some r =>
      if (start_page <? 1) || (total_pages s <? end_page) || (end_page <? start_page)
      then ([], false)
      else
        match extract_pages (pages r) start_page end_page with
        | None => ([], false)
        | Some added =>
            if add_page_raises then ([], false)
            else if write_raises output_file then ([], false)
            else ([(output_file, added)], true)
        end
  end.

End Extract.

(** ** Python string methods (characters are Latin-1 code points) *)

(** [str.isspace] on one character. *)
Definition py_isspace (c : ascii) : bool :=
  let n := nat_of_ascii c in
  (Nat.leb 9 n && Nat.leb n 13) || (Nat.leb 28 n && Nat.leb n 32) ||
  Nat.eqb n 133 || Nat.eqb n 160.

(** [str.lower] on one character. *)
Definition py_lower_char (c : ascii) : ascii :=
  let n := nat_of_ascii c in
  if (Nat.leb 65 n && Nat.leb n 90) ||
     (Nat.leb 192 n && Nat.leb n 222 && negb (Nat.eqb n 215))
  then ascii_of_nat (n + 32) else c.

(** [str.lower]. *)
Fixpoint py_lower (s : string) : string :=
  match s with
  | EmptyString => EmptyString
  | String c s' => String (py_lower_char c) (py_lower s')
  end.

(** Leading whitespace removed. *)
Fixpoint lstrip_chars (l : list ascii) : list ascii :=
  match l with
  | [] => []
  | c :: l' => if py_isspace c then lstrip_chars l' else l
  end.

(** [str.strip()]. *)
Definition py_strip (s : string) : string :=
  string_of_list_ascii
    (rev (lstrip_chars (rev (lstrip_chars (list_ascii_of_string s))))).

(** Splitting at every character satisfying [f]: [n] hits give [n + 1]
    pieces. *)
Fixpoint py_split_pred (f : ascii -> bool) (s : string) : list string :=
  match s with
  | EmptyString => [EmptyString]
  | String c s' =>
      let parts := py_split_pred f s' in
      if f c then EmptyString :: parts
      else match parts with
           | p :: ps => String c p :: ps
           | [] => [String c EmptyString]
           end
  end.

(** [str.split(sep)] for a one-character separator. *)
Definition py_split (sep : ascii) (s : string) : list string :=
  py_split_pred (fun c => Ascii.eqb c sep) s.

(** [str.split()]: runs of whitespace separate, no empty pieces. *)
Definition py_split_ws (s : string) : list string :=
  filter (fun w => negb (String.eqb w EmptyString)) (py_split_pred py_isspace s).

(** [needle in hay]. *)
Fixpoint py_contains (needle hay : string) : bool :=
  String.prefix needle hay ||
  match hay with
  | EmptyString => false
  | String _ h => py_contains needle h
  end.

(** The truth value of an optional string argument. *)
Definition py_truthy_str (o : option string) : bool :=
  match o with
  | Some x => negb (String.eqb x "")
  | None => false
  end.

(** The outcome of [subprocess.run(cmd, ..., check=True)]: its standard
    output, a [CalledProcessError], or another exception (the program not
    found, say). *)
Inductive run_result :=
| RunOk (stdout : string)
| RunCalledProcessError (e : string)
| RunOtherError (e : string).

(** ** main.py: print options *)

(** The loop [for option in ...split(','): key, value = option.split('=');
    print_options[key.strip()] = value.strip()]; [None] is the [ValueError]
    of the unpacking. *)
Fixpoint parse_options_loop (opts : list string) (d : list (string * string))
  : option (list (string * string)) :=
  match opts with
  | [] => Some d
  | option :: rest =>
      match py_split "=" option with
      | [key; value] => parse_options_loop rest (dict_set d (py_strip key) (py_strip value))
      | _ => None
      end
  end.

(** The [print_options] dict built by [main] from [--print-options]; the
    [except ValueError] resets it to [{}]. *)
Definition parse_print_options (print_options : option string)
  : list (string * string) :=
  if py_truthy_str print_options then
    match parse_options_loop (py_split "," (match print_options with
                                             | Some s => s | None => EmptyString end)) [] with
    | Some d => d
    | None => []
    end
  else [].

(** ** main.py: the run after argument parsing *)

(** The parsed arguments [main] uses once the input file is accepted. *)
Record Args := {
  arg_pages : Z;
  arg_preview : bool;
  arg_force : bool;
  arg_print : bool;
  arg_printer : option string;
  arg_print_options : option string
}.

(** [input(...).strip().lower() in ['y', 'yes']]. *)
Definition answer_yes (response : string) : bool :=
  let r := py_lower (py_strip response) in
  String.eqb r "y" || String.eqb r "yes".

(** What a run of [main] did: its exit code, the part files written with
    their pages, and the files sent to [print_file], in order. *)
Record MainRun := {
  exit_code : Z;
  files_written : list (path * list Z);
  files_printed : list path
}.

Section Main.

Variable add_page_fails : nat -> bool.
Variable write_fails : nat -> path -> bool.
(** The paths present in storage when the run starts. *)
Variable existing : list path.
(** The result of [file_manager.create_output_directory()]. *)
Variable mkdir_ok : bool.
(** The answers typed to "Overwrite existing files?" and to "Continue with
    default printer?". *)
Variable overwrite_response continue_response : string.
(** The result of [printer_manager.list_printers()]. *)
Variable available_printers : list string.
(** [print_file(file_path, printer_name, print_options)] at the [i]-th call. *)
Variable print_outcome : option string -> list (string * string) -> nat -> path -> bool * string.

Definition main_stop (code : Z) (written : list (path * list Z)) : MainRun :=
  {| exit_code := code; files_written := written; files_printed := [] |}.

(** [main] from [pdf_splitter.load_pdf()] on; [read] is what [PdfReader]
    reads from the input file. [None] from [generate_output_filenames] (division by
    zero) or from [handle_filename_conflicts] (fuel spent) would be an
    exception ending the program with code 1; neither happens after the
    validation. *)
Definition main_run (args : Args) (s0 : PDFSplitter) (read : option PdfReader)
           (fm : FileManager) : MainRun :=
  let (s, loaded) := load_pdf s0 read in
  if negb loaded then main_stop 1 [] else
  let (is_valid, _) := validate_split_parameters s (arg_pages args) in
  if negb is_valid then main_stop 1 [] else
  if arg_preview args then main_stop 0 [] else
  if negb mkdir_ok then main_stop 1 [] else
  match generate_output_filenames fm (total_pages s) (arg_pages args) with
  | None => main_stop 1 []
  | Some output_files =>
      let existing_files := filter (snapshot_exists existing) output_files in
      if negb (arg_force args) && negb (Nat.eqb (List.length existing_files) 0)
         && negb (answer_yes overwrite_response)
      then main_stop 0 []
      else
        match handle_filename_conflicts (snapshot_exists existing)
                (List.length existing) output_files with
        | None => main_stop 1 []
        | Some output_files' =>
            let (written, success) :=
              split_pdf add_page_fails write_fails s (arg_pages args) output_files' in
            if negb success then main_stop 1 written else
            if negb (arg_print args) then main_stop 0 written else
            let print_options := parse_print_options (arg_print_options args) in
            let printer_missing :=
              match arg_printer args with
              | Some pr => negb (String.eqb pr "") &&
                           negb (existsb (String.eqb pr) available_printers)
              | None => false
              end in
            if printer_missing && negb (answer_yes continue_response)
            then main_stop 0 written
            else
              let (printed, _) :=
                print_multiple_files (print_outcome (arg_printer args) print_options)
                                     output_files' in
              {| exit_code := 0; files_written := written; files_printed := printed |}
        end
  end.

End Main.

(** ** printer_manager.py: printing one file *)

(** [printer_name or 'default']. *)
Definition printer_or_default (printer_name : option string) : string :=
  match printer_name with
  | Some x => if String.eqb x "" then "default" else x
  | None => "default"
  end.

(** The [cmd] of [_print_linux] and [_print_mac]. *)
Definition lpr_command (file_path : path) (printer_name : option string)
           (print_options : list (string * string)) : list string :=
  (["lpr"%string] ++
   match printer_name with
   | Some x => if String.eqb x "" then [] else ["-P"%string; x]
   | None => []
   end ++
   List.concat (map (fun kv => ["-o"%string; (fst kv ++ "=" ++ snd kv)%string]) print_options) ++
   [path_str file_path])%list.

Section PrintFile.

(** [platform.system()]. *)
Variable system : string.
(** [Path.exists]. *)
Variable file_exists : path -> bool.
(** [subprocess.run(cmd, ..., check=True)]. *)
Variable run : list string -> run_result.
(** Whether [import win32api, win32print] succeeds, and the exception raised
    by [SetDefaultPrinter] or [ShellExecute], if any. *)
Variable win32_available : bool.
Variable win32_error : option string.

(** A method's outcome: its return value, or an exception it lets escape;
    with the commands it ran. *)
Definition outcome := ((bool * string) + string)%type.

Definition _print_unix (label : string) (file_path : path) (printer_name : option string)
           (print_options : list (string * string)) : outcome * list (list string) :=
  let cmd := lpr_command file_path printer_name print_options in
  (match run cmd with
   | RunOk _ => inl (true, ("Sent to printer: " ++ printer_or_default printer_name)%string)
   | RunCalledProcessError e => inl (false, (label ++ " print failed: " ++ e)%string)
   | RunOtherError e => inr e
   end, [cmd]).

(** [PrinterManager._print_linux]. *)
Definition _print_linux := _print_unix "Linux".
(** [PrinterManager._print_mac]. *)
Definition _print_mac := _print_unix "Mac".

(** [PrinterManager._print_windows]. *)
Definition _print_windows (file_path : path) (printer_name : option string)
           (print_options : list (string * string)) : outcome * list (list string) :=
  if win32_available then
    (match win32_error with
     | None => inl (true, ("Sent to printer: " ++ printer_or_default printer_name)%string)
     | Some e => inr e
     end, [])
  else
    let cmd := ["powershell"%string; "-Command"%string;
                ("Start-Process -FilePath '" ++ path_str file_path ++ "' -Verb Print")%string] in
    (match run cmd with
     | RunOk _ => inl (true, "Sent to printer via PowerShell"%string)
     | RunCalledProcessError e => inl (false, ("PowerShell print failed: " ++ e)%string)
     | RunOtherError e => inr e
     end, [cmd]).

(** [PrinterManager.print_file]: its [(success, message)] and the commands
    run. *)
Definition print_file (file_path : path) (printer_name : option string)
           (print_options : list (string * string)) : (bool * string) * list (list string) :=
  if negb (file_exists file_path) then
    ((false, ("File not found: " ++ path_str file_path)%string), [])
  else if negb (String.eqb (py_lower (path_suffix file_path)) ".pdf") then
    ((false, "Only PDF files are supported for printing"%string), [])
  else
    let (out, cmds) :=
      if String.eqb system "Windows" then _print_windows file_path printer_name print_options
      else if String.eqb system "Darwin" then _print_mac file_path printer_name print_options
      else if String.eqb system "Linux" then _print_linux file_path printer_name print_options
      else (inl (false, ("Printing not supported on " ++ system)%string), []) in
    (match out with
     | inl res => res
     | inr e => (false, ("Print error: " ++ e)%string)
     end, cmds).

End PrintFile.

(** ** printer_manager.py: printers and their status *)

(** The loop of [_list_linux_printers] (and of [_list_mac_printers], whose
    body is the same) over the lines of [lpstat -p]; [None] is the
    [IndexError] of [line.split()[1]]. *)
Fixpoint lpstat_printers (lines : list string) : option (list string) :=
  match lines with
  | [] => Some []
  | line :: rest =>
      if String.prefix "printer " line then
        match py_split_ws line with
        | _ :: printer_name :: _ =>
            match lpstat_printers rest with
            | Some ps => Some (printer_name :: ps)
            | None => None
            end
        | _ => None
        end
      else lpstat_printers rest
  end.

(** [_list_linux_printers] / [_list_mac_printers]: the printers, or the
    exception they let escape. *)
Definition _list_unix_printers (lpstat_p : run_result) : list string + string :=
  match lpstat_p with
  | RunOk out =>
      match lpstat_printers (py_split "010" out) with
      | Some ps => inl ps
      | None => inr "list index out of range"%string
      end
  | RunCalledProcessError _ => inl []
  | RunOtherError e => inr e
  end.

(** [_list_windows_printers]: [win32] is [EnumPrinters]' names, [None]
    when [win32print] cannot be imported. *)
Definition _list_windows_printers (win32 : option (list string)) (powershell : run_result)
  : list string + string :=
  match win32 with
  | Some names => inl names
  | None =>
      match powershell with
      | RunOk out =>
          inl (map py_strip (filter (fun line => negb (String.eqb (py_strip line) ""))
                                    (py_split "010" out)))
      | RunCalledProcessError _ => inl []
      | RunOtherError e => inr e
      end
  end.

(** [PrinterManager.list_printers]; its [except Exception] returns [[]]. *)
Definition list_printers (system : string) (win32 : option (list string))
           (powershell lpstat_p : run_result) : list string :=
  let res :=
    if String.eqb system "Windows" then _list_windows_printers win32 powershell
    else if String.eqb system "Darwin" then _list_unix_printers lpstat_p
    else if String.eqb system "Linux" then _list_unix_printers lpstat_p
    else inl [] in
  match res with
  | inl ps => ps
  | inr _ => []
  end.

(** The loop of [_get_unix_default_printer] over the lines of [lpstat -d]. *)
Fixpoint default_from_lines (lines : list string) : option string :=
  match lines with
  | [] => None
  | line :: rest =>
      if py_contains "system default destination:" line
      then Some (py_strip (last (py_split ":" line) EmptyString))
      else default_from_lines rest
  end.

(** [PrinterManager._get_unix_default_printer]; an exception other than
    [CalledProcessError] reaches [get_default_printer], which returns
    [None]. *)
Definition _get_unix_default_printer (lpstat_d : run_result) : option string :=
  match lpstat_d with
  | RunOk out => default_from_lines (py_split "010" out)
  | _ => None
  end.

(** The dict returned by [check_printer_status]. *)
Record PrinterStatus := {
  status_name : string;
  status_available : bool;
  status : string
}.

(** [PrinterManager.check_printer_status]; [lpstat] is the outcome of
    [lpstat -p printer_name]. Another exception escapes ([inr]). *)
Definition check_printer_status (system : string) (lpstat : run_result)
           (printer_name : string) : PrinterStatus + string :=
  if String.eqb system "Darwin" || String.eqb system "Linux" then
    match lpstat with
    | RunOk out =>
        let low := py_lower out in
        if py_contains "disabled" low then
          inl {| status_name := printer_name; status_available := false;
                 status := "disabled" |}
        else if py_contains "idle" low then
          inl {| status_name := printer_name; status_available := true; status := "idle" |}
        else
          inl {| status_name := printer_name; status_available := true;
                 status := "unknown" |}
    | RunCalledProcessError _ =>
        inl {| status_name := printer_name; status_available := false;
               status := "not found" |}
    | RunOtherError e => inr e
    end
  else inl {| status_name := printer_name; status_available := true; status := "unknown" |}.

(** ** file_manager.py: cleanup *)

(** Removing a path from a storage snapshot. *)
Definition storage_remove (storage : list path) (q : path) : list path :=
  filter (fun x => negb (path_eqb x q)) storage.

(** [FileManager.cleanup_temp_files] on a storage snapshot; [unlink_fails q]
    is an exception raised by [q.unlink()], caught and reported. *)
Fixpoint cleanup_temp_files (unlink_fails : path -> bool) (storage : list path)
         (file_list : list path) : list path :=
  match file_list with
  | [] => storage
  | file_path :: rest =>
      let storage' :=
        if existsb (path_eqb file_path) storage then
          if unlink_fails file_path then storage else storage_remove storage file_path
        else storage in
      cleanup_temp_files unlink_fails storage' rest
  end.

(** ** printer_manager.py: the default printer; file_manager.py: input check *)

(** [PrinterManager._get_windows_default_printer]: [win32] is
    [GetDefaultPrinter()]'s name or the exception it raises, [None] when
    [win32print] cannot be imported; [powershell] is the outcome of the
    [Get-WmiObject] command. An exception other than [CalledProcessError]
    escapes ([inr]). *)
Definition _get_windows_default_printer (win32 : option (string + string))
           (powershell : run_result) : option string + string :=
  match win32 with
  | Some (inl printer) => inl (Some printer)
  | Some (inr e) => inr e
  | None =>
      match powershell with
      | RunOk out => inl (Some (py_strip out))
      | RunCalledProcessError _ => inl None
      | RunOtherError e => inr e
      end
  end.

(** [PrinterManager.get_default_printer]; its [except Exception] returns
    [None]. *)
Definition get_default_printer (system : string) (win32 : option (string + string))
           (powershell lpstat_d : run_result) : option string :=
  if String.eqb system "Windows" then
    match _get_windows_default_printer win32 powershell with
    | inl r => r
    | inr _ => None
    end
  else if String.eqb system "Darwin" || String.eqb system "Linux" then
    _get_unix_default_printer lpstat_d
  else None.

(** [FileManager.validate_input]: the result and the lines printed. *)
Definition validate_input (input_exists input_is_file : bool) (input_file : path)
  : bool * list string :=
  if negb input_exists then
    (false, [("Error: Input file '" ++ path_str input_file ++ "' does not exist.")%string])
  else if negb input_is_file then
    (false, [("Error: '" ++ path_str input_file ++ "' is not a file.")%string])
  else if negb (String.eqb (py_lower (path_suffix input_file)) ".pdf") then
    (true, [("Warning: '" ++ path_str input_file ++ "' may not be a PDF file.")%string])
  else (true, []).

(** ** main.py: listing the printers *)

(** [PrinterManager.get_print_options_help], in the dict's order. *)
Definition get_print_options_help : list (string * string) :=
  [("sides", "one-sided, two-sided-long-edge, two-sided-short-edge");
   ("media", "a4, letter, legal, etc.");
   ("orientation", "portrait, landscape");
   ("quality", "draft, normal, high");
   ("copies", "number of copies (1, 2, 3, etc.)");
   ("page-ranges", "1-5, 1,3,5, etc.");
   ("finishings", "staple-top-left, staple-top-right, staple-bottom-left, staple-bottom-right, staple-dual-left, staple-dual-top, staple-none")]%string.

(** A string printed with a leading ["\n"]. *)
Definition nl (s : string) : string := String "010" s.

(** [main.print_available_printers]: the lines printed, given the results of
    [list_printers()] and of [get_default_printer()] (only called when some
    printer is listed). *)
Definition print_available_printers (system : string) (printers : list string)
           (default_printer : option string) : list string :=
  ("System: " ++ system)%string ::
  match printers with
  | [] => ["No printers found or unable to list printers."%string]
  | _ =>
      (nl ("Available printers (" ++ str_nat (List.length printers) ++ "):")
       :: map (fun ip => "  " ++ str_nat (fst ip) ++ ". " ++ snd ip)
              (combine (seq 1 (List.length printers)) printers)
       ++ match default_printer with
          | Some d => if String.eqb d "" then [] else [nl ("Default printer: " ++ d)]
          | None => []
          end
       ++ nl "Print options (use with --print-options):"
       :: map (fun kd => "  " ++ fst kd ++ ": " ++ snd kd) get_print_options_help)%string
  end.

(** ** Auxiliary definitions of the proofs *)

(** The pages [start_page .. end_page] (1-based, inclusive) of a page list. *)
Definition page_slice (pgs : list Z) (start_page end_page : Z) : list Z :=
  firstn (Z.to_nat (end_page - start_page + 1)) (skipn (Z.to_nat (start_page - 1)) pgs).

Definition range_at (T p : Z) (k : nat) : Z * Z :=
  (Z.of_nat k * p + 1, Z.min (Z.of_nat k * p + p) T).

Definition value_le (ds : list nat) : nat :=
  fold_right (fun d acc => (d + 10 * acc)%nat) 0%nat ds.

(** Characters ['0'..'9']. *)
Definition is_digit (c : ascii) : bool :=
  Nat.leb 48 (nat_of_ascii c) && Nat.leb (nat_of_ascii c) 57.

Definition no_digit_head (t : list ascii) : Prop :=
  match t with
  | [] => True
  | c :: _ => is_digit c = false
  end.

(** The stem [{base_name}_part_{i:03d}] of the [i]-th generated name. *)
Definition part_stem (fm : FileManager) (i : nat) : string :=
  (base_name fm ++ "_part_" ++ fmt03 (i + 1))%string.

(** The outcome of [resolve_loop] from [counter = c] under [exists_]. *)
Definition resolved_from (exists_ : path -> bool) (c : nat)
           (original_path file_path r : path) : Prop :=
  (exists_ file_path = false /\ r = file_path) \/
  (exists_ file_path = true /\
   exists k, (c <= k)%nat /\ r = conflict_name original_path k /\ exists_ r = false /\
     forall j, (c <= j < k)%nat -> exists_ (conflict_name original_path j) = true).

(** A resolved name of the [i]-th part: [{base}_part_{i+1:03d}.pdf] or
    [{base}_part_{i+1:03d}_{k}.pdf], in the output directory. *)
Definition part_shaped (fm : FileManager) (i : nat) (q : path) : Prop :=
  parent q = output_dir fm /\
  (name q = (part_stem fm i ++ ".pdf")%string \/
   exists k, name q = (part_stem fm i ++ "_" ++ str_nat k ++ ".pdf")%string).

Definition doc9 : PDFSplitter :=
  {| input_file := "doc.pdf"; reader := Some {| pages := [1; 2; 3; 4; 5; 6; 7; 8; 9] |};
     total_pages := 9 |}.

Definition parts3 : list path :=
  [path_div "out" "doc_part_001.pdf"; path_div "out" "doc_part_002.pdf";
   path_div "out" "doc_part_003.pdf"].

(** Part [j] goes through: its pages are added and its file is written. *)
Definition part_ok (add_page_fails : nat -> bool) (write_fails : nat -> path -> bool)
           (output_files : list path) (j : nat) : bool :=
  negb (add_page_fails j) &&
  match nth_error output_files j with
  | Some o => negb (write_fails j o)
  | None => false
  end.

Definition print_scenario (i : nat) (_ : path) : bool * string :=
  if Nat.eqb i 1 then (false, "Linux print failed"%string)
  else (true, "Sent to printer: default"%string).

(** A run of [main] on the 9-page document in parts of 3, with [--force] and
    [--print], the first part name already present, nothing failing. *)
Definition reader9 : PdfReader := {| pages := [1; 2; 3; 4; 5; 6; 7; 8; 9] |}.

Definition args_split3 : Args :=
  {| arg_pages := 3; arg_preview := false; arg_force := true; arg_print := true;
     arg_printer := None; arg_print_options := None |}.

Definition fm_out : FileManager := {| output_dir := "out"; base_name := "doc" |}.

Definition existing1 : list path := [path_div "out" "doc_part_001.pdf"].

Definition print_ok (_ : option string) (_ : list (string * string)) (_ : nat) (_ : path)
  : bool * string := (true, "Sent to printer: default"%string).

Definition run_example : MainRun :=
  main_run (fun _ => false) (fun _ _ => false) existing1 true "" "" [] print_ok
           args_split3 doc9 (Some reader9) fm_out.

(** [sep.join(l)]. *)
Fixpoint py_join (sep : string) (l : list string) : string :=
  match l with
  | [] => EmptyString
  | [x] => x
  | x :: xs => (x ++ sep ++ py_join sep xs)%string
  end.

(** A [--print-options] value for a list of options: [k1=v1,k2=v2,...]. *)
Definition render_options (kvs : list (string * string)) : string :=
  py_join "," (map (fun kv => (fst kv ++ "=" ++ snd kv)%string) kvs).

Example get_page_ranges_20_8 :
  _get_page_ranges {| input_file := "doc.pdf"%string; reader := None; total_pages := 20 |} 8
  = Some [(1, 8); (9, 16); (17, 20)].
Proof. reflexivity. Qed.

Example get_split_ranges_9_3 :
  get_split_ranges 9 3 = Some [(1, 3); (4, 6); (7, 9)].
Proof. reflexivity. Qed.

Example validate_example :
  validate_split_parameters {| input_file := "doc.pdf"%string; reader := None; total_pages := 20 |} 25
  = (false, "Pages per split (25) should be less than total pages (20)")%string.
Proof. reflexivity. Qed.

(** ** Page ranges *)

Lemma get_page_ranges_closed (s : PDFSplitter) (p : Z) :
  0 < p -> 0 <= total_pages s ->
  _get_page_ranges s p =
  Some (map (range_at (total_pages s) p)
            (seq 0 (Z.to_nat ((total_pages s + p - 1) / p)))).
Proof.
  intros Hp HT. unfold _get_page_ranges, py_range, py_range_len.
  replace (p =? 0) with false by lia.
  replace (0 <? p) with true by lia.
  rewrite Z.sub_0_r, Z.max_r by (apply Z.div_pos; lia).
  f_equal. rewrite map_map. apply map_ext. intro k.
  unfold range_at. f_equal; lia.
Qed.

Lemma nth_error_ranges (T p : Z) (n k : nat) :
  nth_error (map (range_at T p) (seq 0 n)) k =
  if Nat.ltb k n then Some (range_at T p k) else None.
Proof.
  rewrite nth_error_map, nth_error_seq. destruct (Nat.ltb k n); reflexivity.
Qed.

(** The division facts behind [(T + p - 1) // p]. *)
Lemma ceil_div_bounds (T p : Z) :
  0 < p ->
  p * ((T + p - 1) / p) <= T + p - 1 < p * ((T + p - 1) / p) + p.
Proof.
  intros Hp. pose proof (Z.div_mod (T + p - 1) p ltac:(lia)).
  pose proof (Z.mod_pos_bound (T + p - 1) p Hp). lia.
Qed.

Lemma ceil_div_nonneg (T p : Z) : 0 < p -> 0 <= T -> 0 <= (T + p - 1) / p.
Proof. intros. apply Z.div_pos; lia. Qed.

(** Below the last part, a part is full: its end [k * p + p] is within the
    document. *)
Lemma full_part (T p : Z) (k : nat) :
  0 < p -> (S k < Z.to_nat ((T + p - 1) / p))%nat -> Z.of_nat k * p + p < T.
Proof.
  intros Hp Hk. pose proof (ceil_div_bounds T p Hp) as [H1 H2].
  assert (Z.of_nat (S k) <= (T + p - 1) / p - 1) by lia.
  rewrite Nat2Z.inj_succ in H.
  assert ((Z.of_nat k + 1) * p <= ((T + p - 1) / p - 1) * p)
    by (apply Z.mul_le_mono_nonneg_r; lia).
  lia.
Qed.

Lemma last_part_ends (T p : Z) :
  0 < p -> 0 < T ->
  Z.min (Z.of_nat (Z.to_nat ((T + p - 1) / p) - 1) * p + p) T = T.
Proof.
  intros Hp HT. pose proof (ceil_div_bounds T p Hp) as [H1 H2].
  assert (1 <= (T + p - 1) / p) by nia.
  rewrite Nat2Z.inj_sub, Z2Nat.id by lia. nia.
Qed.

(** [C1] For [0 < total_units] and [0 < unit_cap < total_units],
    [_get_page_ranges] returns a list of 1-indexed inclusive ranges: the first
    starts at 1, the last ends at [total_units], every range is non-empty,
    each range starts one past the end of the previous one, every page of
    [1, total_units] lies in exactly one range and no other page in any, and
    the number [n] of ranges is the ceiling of [total_units / unit_cap], that
    is [(n - 1) * unit_cap < total_units <= n * unit_cap]. *)
Theorem get_page_ranges_partition (s : PDFSplitter) (p : Z) :
  0 < total_pages s -> 0 < p < total_pages s ->
  exists rs, _get_page_ranges s p = Some rs /\
    (Z.of_nat (List.length rs) - 1) * p < total_pages s
      <= Z.of_nat (List.length rs) * p /\
    (exists b, nth_error rs 0 = Some (1, b)) /\
    (exists a, nth_error rs (List.length rs - 1) = Some (a, total_pages s)) /\
    (forall k a b, nth_error rs k = Some (a, b) -> a <= b) /\
    (forall k a b c d, nth_error rs k = Some (a, b) ->
       nth_error rs (S k) = Some (c, d) -> c = b + 1) /\
    (forall x, 1 <= x <= total_pages s <->
       exists k a b, nth_error rs k = Some (a, b) /\ a <= x <= b) /\
    (forall x k1 a1 b1 k2 a2 b2,
       nth_error rs k1 = Some (a1, b1) -> nth_error rs k2 = Some (a2, b2) ->
       a1 <= x <= b1 -> a2 <= x <= b2 -> k1 = k2).
Proof.
  intros HT Hp. rewrite get_page_ranges_closed by lia.
  eexists. split; [reflexivity |].
  set (T := total_pages s) in *.
  pose proof (ceil_div_bounds T p ltac:(lia)) as [H1 H2].
  set (N := (T + p - 1) / p) in *.
  assert (HN1 : 1 <= N) by nia.
  rewrite length_map, length_seq, Z2Nat.id by lia.
  split; [nia |].
  split; [exists (Z.min p T); rewrite nth_error_ranges;
          replace (Nat.ltb 0 (Z.to_nat N)) with true by (symmetry; apply Nat.ltb_lt; lia);
          unfold range_at; simpl Z.of_nat; f_equal; f_equal; lia |].
  split.
  { eexists. rewrite nth_error_ranges.
    replace (Nat.ltb (Z.to_nat N - 1) (Z.to_nat N)) with true
      by (symmetry; apply Nat.ltb_lt; lia).
    unfold range_at. f_equal. f_equal. apply last_part_ends; lia. }
  split.
  { intros k a b. rewrite nth_error_ranges. destruct (Nat.ltb_spec k (Z.to_nat N));
      [| discriminate]. intros E; injection E as <- <-.
    assert (Z.of_nat k <= N - 1) by lia.
    assert (Z.of_nat k * p <= (N - 1) * p) by (apply Z.mul_le_mono_nonneg_r; lia).
    nia. }
  split.
  { intros k a b c d. rewrite !nth_error_ranges.
    destruct (Nat.ltb_spec k (Z.to_nat N)); [| discriminate].
    destruct (Nat.ltb_spec (S k) (Z.to_nat N)); [| discriminate].
    intros E1 E2. unfold range_at in E1, E2. rewrite Nat2Z.inj_succ in E2.
    injection E1 as <- <-; injection E2 as <- <-.
    pose proof (full_part T p k ltac:(lia) ltac:(assumption)). lia. }
  split.
  { intros x. split.
    - intros Hx. exists (Z.to_nat ((x - 1) / p)).
      pose proof (Z.div_mod (x - 1) p ltac:(lia)).
      pose proof (Z.mod_pos_bound (x - 1) p ltac:(lia)).
      assert (0 <= (x - 1) / p) by (apply Z.div_pos; lia).
      assert ((x - 1) / p < N) by nia.
      rewrite nth_error_ranges.
      replace (Nat.ltb (Z.to_nat ((x - 1) / p)) (Z.to_nat N)) with true
        by (symmetry; apply Nat.ltb_lt; lia).
      do 2 eexists. split; [reflexivity |]. unfold range_at.
      rewrite Z2Nat.id by lia. lia.
    - intros (k & a & b & E & Hab). rewrite nth_error_ranges in E.
      destruct (Nat.ltb k (Z.to_nat N)); [| discriminate].
      injection E as <- <-. lia. }
  intros x k1 a1 b1 k2 a2 b2 E1 E2 X1 X2.
  rewrite nth_error_ranges in E1, E2.
  destruct (Nat.ltb k1 (Z.to_nat N)); [| discriminate].
  destruct (Nat.ltb k2 (Z.to_nat N)); [| discriminate].
  injection E1 as <- <-; injection E2 as <- <-.
  assert (Z.of_nat k1 = Z.of_nat k2) by nia. lia.
Qed.

(** Witness of [C1]: the scenario [total_units = 20], [unit_cap = 8]. *)
Lemma get_page_ranges_partition_witness :
  _get_page_ranges {| input_file := "doc.pdf"%string; reader := None; total_pages := 20 |} 8
    = Some [(1, 8); (9, 16); (17, 20)] /\
  exists rs, _get_page_ranges {| input_file := "doc.pdf"%string; reader := None; total_pages := 20 |} 8 = Some rs /\
    (Z.of_nat (List.length rs) - 1) * 8 < 20 <= Z.of_nat (List.length rs) * 8 /\
    (exists b, nth_error rs 0 = Some (1, b)) /\
    (exists a, nth_error rs (List.length rs - 1) = Some (a, 20)) /\
    (forall k a b, nth_error rs k = Some (a, b) -> a <= b) /\
    (forall k a b c d, nth_error rs k = Some (a, b) ->
       nth_error rs (S k) = Some (c, d) -> c = b + 1) /\
    (forall x, 1 <= x <= 20 <->
       exists k a b, nth_error rs k = Some (a, b) /\ a <= x <= b) /\
    (forall x k1 a1 b1 k2 a2 b2,
       nth_error rs k1 = Some (a1, b1) -> nth_error rs k2 = Some (a2, b2) ->
       a1 <= x <= b1 -> a2 <= x <= b2 -> k1 = k2).
Proof.
  split; [reflexivity |].
  apply (get_page_ranges_partition
           {| input_file := "doc.pdf"%string; reader := None; total_pages := 20 |} 8);
    simpl; lia.
Defined.

(** The size of the last part, [T - (N - 1) * p], is what
    [calculate_split_info] computes from [T % p]. *)
Lemma last_part_size (T p : Z) :
  0 < p -> 0 < T ->
  T - ((T + p - 1) / p - 1) * p =
  (if T mod p =? 0 then p else T mod p).
Proof.
  intros Hp HT. pose proof (ceil_div_bounds T p Hp) as [H1 H2].
  pose proof (Z.div_mod T p ltac:(lia)). pose proof (Z.mod_pos_bound T p Hp).
  set (N := (T + p - 1) / p) in *. set (q := T / p) in *. set (r := T mod p) in *.
  assert (Hd : N - q = 0 \/ N - q = 1) by nia.
  destruct (Z.eqb_spec r 0); destruct Hd as [Hd | Hd];
    replace N with (q + (N - q)) by lia; rewrite Hd; nia.
Qed.

(** [C6] For [0 < total_units] and [0 < unit_cap < total_units], every range
    of the plan but the last has exactly [unit_cap] pages, the last has
    between 1 and [unit_cap] pages, and [calculate_split_info] reports the
    plan as its ranges, its length as [num_splits], and the size of the last
    range as [last_split_pages], which is [total_units mod unit_cap], or
    [unit_cap] when the remainder is 0. *)
Theorem split_info_part_sizes (s : PDFSplitter) (p : Z) :
  0 < total_pages s -> 0 < p < total_pages s ->
  exists rs info, _get_page_ranges s p = Some rs /\
    calculate_split_info s p = Some info /\
    ranges info = rs /\ num_splits info = Z.of_nat (List.length rs) /\
    (forall k a b, (S k < List.length rs)%nat -> nth_error rs k = Some (a, b) ->
       b - a + 1 = p) /\
    (exists a b, nth_error rs (List.length rs - 1) = Some (a, b) /\
       1 <= b - a + 1 <= p /\ last_split_pages info = b - a + 1) /\
    last_split_pages info =
      (if total_pages s mod p =? 0 then p else total_pages s mod p).
Proof.
  intros HT Hp.
  assert (HR := get_page_ranges_closed s p ltac:(lia) ltac:(lia)).
  do 2 eexists. split; [exact HR |].
  split; [unfold calculate_split_info; rewrite HR;
          replace (p =? 0) with false by lia; reflexivity |].
  simpl. split; [reflexivity |].
  rewrite length_map, length_seq.
  set (T := total_pages s) in *.
  pose proof (ceil_div_bounds T p ltac:(lia)) as [H1 H2].
  set (N := (T + p - 1) / p) in *.
  assert (HN1 : 1 <= N) by nia.
  split; [rewrite Z2Nat.id by lia; reflexivity |].
  split.
  { intros k a b Hk E. rewrite nth_error_ranges in E.
    replace (Nat.ltb k (Z.to_nat N)) with true in E
      by (symmetry; apply Nat.ltb_lt; lia).
    injection E as <- <-.
    pose proof (full_part T p k ltac:(lia) Hk). lia. }
  pose proof (last_part_size T p ltac:(lia) ltac:(lia)) as HL. fold N in HL.
  split; [| reflexivity].
  eexists; eexists. rewrite nth_error_ranges.
  replace (Nat.ltb (Z.to_nat N - 1) (Z.to_nat N)) with true
    by (symmetry; apply Nat.ltb_lt; lia).
  split; [reflexivity |].
  pose proof (last_part_ends T p ltac:(lia) ltac:(lia)) as HE. fold N in HE.
  rewrite HE. rewrite Nat2Z.inj_sub, Z2Nat.id by lia. rewrite <- HL.
  split; [| ring].
  destruct (Z.eqb_spec (T mod p) 0); nia.
Qed.

(** Witness of [C6]: 20 pages in parts of 8; the last part has 4 pages. *)
Lemma split_info_part_sizes_witness :
  exists rs info,
    _get_page_ranges {| input_file := "doc.pdf"%string; reader := None; total_pages := 20 |} 8 = Some rs /\
    calculate_split_info {| input_file := "doc.pdf"%string; reader := None; total_pages := 20 |} 8 = Some info /\
    ranges info = rs /\ num_splits info = Z.of_nat (List.length rs) /\
    (forall k a b, (S k < List.length rs)%nat -> nth_error rs k = Some (a, b) ->
       b - a + 1 = 8) /\
    (exists a b, nth_error rs (List.length rs - 1) = Some (a, b) /\
       1 <= b - a + 1 <= 8 /\ last_split_pages info = b - a + 1) /\
    last_split_pages info = (if 20 mod 8 =? 0 then 8 else 20 mod 8).
Proof.
  apply (split_info_part_sizes
           {| input_file := "doc.pdf"%string; reader := None; total_pages := 20 |} 8);
    simpl; lia.
Defined.

(** [C10] [PDFSplitter._get_page_ranges] and [FileManager.get_split_ranges]
    compute the same list of ranges for the same page count and cap (both
    fail alike, with the [ValueError] of [range], at a zero cap). *)
Theorem page_ranges_agree (s : PDFSplitter) (pages_per_split : Z) :
  _get_page_ranges s pages_per_split
  = get_split_ranges (total_pages s) pages_per_split.
Proof. reflexivity. Qed.

(** [C2] For every page count, [validate_split_parameters] returns
    [(False, msg)] with a non-empty [msg] when [pages_per_split <= 0] or
    [pages_per_split >= total_pages], and [(True, "")] when
    [0 < pages_per_split < total_pages]. *)
Theorem validate_split_parameters_exact (s : PDFSplitter) (pages_per_split : Z) :
  ((pages_per_split <= 0 \/ total_pages s <= pages_per_split) ->
   fst (validate_split_parameters s pages_per_split) = false /\
   snd (validate_split_parameters s pages_per_split) <> ""%string) /\
  (0 < pages_per_split < total_pages s ->
   validate_split_parameters s pages_per_split = (true, ""%string)).
Proof.
  unfold validate_split_parameters. split.
  - intros H. destruct (Z.leb_spec pages_per_split 0);
      [split; [reflexivity | discriminate] |].
    destruct (Z.leb_spec (total_pages s) pages_per_split); [| lia].
    split; [reflexivity | simpl; discriminate].
  - intros H. replace (pages_per_split <=? 0) with false by lia.
    replace (total_pages s <=? pages_per_split) with false by lia.
    reflexivity.
Qed.

Example fmt03_examples :
  fmt03 1 = "001"%string /\ fmt03 12 = "012"%string /\ fmt03 1234 = "1234"%string.
Proof. repeat split; reflexivity. Qed.

Example conflict_example :
  handle_filename_conflicts
    (snapshot_exists [path_div "out" "doc_part_001.pdf"; path_div "out" "doc_part_001_1.pdf"]) 2
    [path_div "out" "doc_part_001.pdf"; path_div "out" "doc_part_002.pdf"]
  = Some [path_div "out" "doc_part_001_2.pdf"; path_div "out" "doc_part_002.pdf"].
Proof. reflexivity. Qed.

(** ** Strings as character lists *)

Lemma chars_app (s t : string) : list_ascii_of_string (s ++ t)%string = list_ascii_of_string s ++ list_ascii_of_string t.
Proof. induction s as [| c s IH]; simpl; [reflexivity | now rewrite IH]. Qed.

Lemma chars_inj (s t : string) : list_ascii_of_string s = list_ascii_of_string t -> s = t.
Proof.
  intros H. rewrite <- (string_of_list_ascii_of_string s),
    <- (string_of_list_ascii_of_string t), H. reflexivity.
Qed.

Lemma length_chars (s : string) : String.length s = List.length (list_ascii_of_string s).
Proof. induction s; simpl; auto. Qed.

Lemma str_append_assoc (a b c : string) : (a ++ (b ++ c))%string = ((a ++ b) ++ c)%string.
Proof. apply chars_inj. rewrite !chars_app. apply app_assoc. Qed.

Lemma str_length_app (a b : string) :
  String.length (a ++ b) = (String.length a + String.length b)%nat.
Proof. rewrite !length_chars, chars_app, length_app. reflexivity. Qed.

(** ** Decimal digits *)

Lemma value_le_cons (d : nat) (ds : list nat) :
  value_le (d :: ds) = (d + 10 * value_le ds)%nat.
Proof. reflexivity. Qed.

Lemma digits_le_aux_spec (fuel n : nat) :
  (n <= fuel)%nat ->
  value_le (digits_le_aux fuel n) = n /\ Forall (fun d => d < 10)%nat (digits_le_aux fuel n).
Proof.
  revert n. induction fuel as [| f IH]; intros n Hn.
  - simpl. assert (n = 0%nat) by lia. subst. split; [reflexivity | constructor; [lia | constructor]].
  - cbn [digits_le_aux]. destruct (Nat.ltb_spec n 10).
    + split; [rewrite value_le_cons; simpl; lia | constructor; [lia | constructor]].
    + assert (Hd : (n / 10 <= f)%nat).
      { assert (n / 10 < n)%nat by (apply Nat.div_lt; lia). lia. }
      destruct (IH (n / 10)%nat Hd) as [IHv IHf].
      split.
      * rewrite value_le_cons, IHv. pose proof (Nat.div_mod_eq n 10). lia.
      * constructor; [apply Nat.mod_upper_bound; lia | exact IHf].
Qed.

Lemma digits_le_spec (n : nat) :
  value_le (digits_le n) = n /\ Forall (fun d => d < 10)%nat (digits_le n).
Proof. apply digits_le_aux_spec. lia. Qed.

Lemma value_le_pad (ds : list nat) (k : nat) :
  value_le (ds ++ repeat 0%nat k) = value_le ds.
Proof.
  induction ds as [| d ds IH]; simpl.
  - induction k; simpl; lia.
  - rewrite IH. reflexivity.
Qed.

Lemma digit_char_inj (d e : nat) : (d < 10)%nat -> (e < 10)%nat ->
  digit_char d = digit_char e -> d = e.
Proof.
  intros Hd He H. unfold digit_char in H.
  apply (f_equal nat_of_ascii) in H.
  rewrite !nat_ascii_embedding in H by lia. lia.
Qed.

Lemma map_digit_char_inj (ds es : list nat) :
  Forall (fun d => d < 10)%nat ds -> Forall (fun d => d < 10)%nat es ->
  map digit_char ds = map digit_char es -> ds = es.
Proof.
  revert es. induction ds as [| d ds IH]; intros [| e es] Hd He H;
    try discriminate; [reflexivity |].
  inversion Hd; inversion He; simpl in H; injection H as Hc Hl.
  f_equal; [apply digit_char_inj | apply IH]; assumption.
Qed.

Lemma digit_char_is_digit (d : nat) : (d < 10)%nat -> is_digit (digit_char d) = true.
Proof.
  intros Hd. unfold is_digit, digit_char.
  rewrite nat_ascii_embedding by lia.
  apply andb_true_intro; split; apply Nat.leb_le; lia.
Qed.

(** A maximal run of digits is read off unambiguously. *)
Lemma digits_prefix_unique (d1 d2 t1 t2 : list ascii) :
  Forall (fun c => is_digit c = true) d1 -> Forall (fun c => is_digit c = true) d2 ->
  no_digit_head t1 -> no_digit_head t2 ->
  d1 ++ t1 = d2 ++ t2 -> d1 = d2 /\ t1 = t2.
Proof.
  revert d2. induction d1 as [| c d1 IH]; intros [| c' d2] D1 D2 T1 T2 H; simpl in H.
  - split; auto.
  - exfalso. rewrite H in T1. simpl in T1. inversion D2. congruence.
  - exfalso. rewrite <- H in T2. simpl in T2. inversion D1. congruence.
  - injection H as -> H. inversion D1; inversion D2; subst.
    destruct (IH d2) as [-> ->]; auto.
Qed.

Lemma Forall_repeat_digit (k : nat) : Forall (fun d => d < 10)%nat (repeat 0%nat k).
Proof. induction k; simpl; constructor; auto; lia. Qed.

Lemma chars_str_nat (n : nat) :
  list_ascii_of_string (str_nat n) = map digit_char (rev (digits_le n)).
Proof. unfold str_nat. apply list_ascii_of_string_of_list_ascii. Qed.

(** The characters of [f"{n:03d}"] are those of the padded digit list. *)
Lemma chars_fmt03 (n : nat) :
  list_ascii_of_string (fmt03 n) =
  map digit_char (rev (digits_le n ++ repeat 0%nat (3 - List.length (digits_le n)))).
Proof.
  unfold fmt03. rewrite chars_app, list_ascii_of_string_of_list_ascii, chars_str_nat.
  rewrite length_chars, chars_str_nat, length_map, length_rev.
  rewrite rev_app_distr, rev_repeat, map_app, map_repeat. reflexivity.
Qed.

Lemma all_digits_map (ds : list nat) :
  Forall (fun d => d < 10)%nat ds ->
  Forall (fun c => is_digit c = true) (map digit_char ds).
Proof.
  intros H. apply Forall_map. eapply Forall_impl; [| exact H].
  intros d Hd. apply digit_char_is_digit. exact Hd.
Qed.

Lemma str_nat_digits (n : nat) :
  Forall (fun c => is_digit c = true) (list_ascii_of_string (str_nat n)).
Proof.
  rewrite chars_str_nat. apply all_digits_map, Forall_rev, digits_le_spec.
Qed.

Lemma fmt03_digits (n : nat) :
  Forall (fun c => is_digit c = true) (list_ascii_of_string (fmt03 n)).
Proof.
  rewrite chars_fmt03. apply all_digits_map, Forall_rev, Forall_app.
  split; [apply digits_le_spec | apply Forall_repeat_digit].
Qed.

Lemma str_nat_inj (n m : nat) : str_nat n = str_nat m -> n = m.
Proof.
  intros H. apply (f_equal list_ascii_of_string) in H. rewrite !chars_str_nat in H.
  destruct (digits_le_spec n) as [Vn Fn], (digits_le_spec m) as [Vm Fm].
  apply map_digit_char_inj in H; try (apply Forall_rev; assumption).
  apply (f_equal (@rev nat)) in H. rewrite !rev_involutive in H.
  rewrite <- Vn, <- Vm, H. reflexivity.
Qed.

Lemma fmt03_inj (n m : nat) : fmt03 n = fmt03 m -> n = m.
Proof.
  intros H. apply (f_equal list_ascii_of_string) in H. rewrite !chars_fmt03 in H.
  destruct (digits_le_spec n) as [Vn Fn], (digits_le_spec m) as [Vm Fm].
  apply map_digit_char_inj in H;
    try (apply Forall_rev, Forall_app; split; [assumption | apply Forall_repeat_digit]).
  apply (f_equal (@rev nat)) in H. rewrite !rev_involutive in H.
  apply (f_equal value_le) in H. rewrite !value_le_pad in H. congruence.
Qed.

(** ** Path components of the generated names *)

Lemma rfind_from_app (s t : string) (c : ascii) (i : nat) (acc : option nat) :
  rfind_from (s ++ t) c i acc
  = rfind_from t c (i + String.length s) (rfind_from s c i acc).
Proof.
  revert i acc. induction s as [| c' s IH]; intros i acc; simpl.
  - rewrite Nat.add_0_r. reflexivity.
  - rewrite IH. f_equal. lia.
Qed.

Lemma substring_prefix (s t : string) :
  substring 0 (String.length s) (s ++ t) = s.
Proof. induction s as [| c s IH]; simpl; [now destruct t | now rewrite IH]. Qed.

Lemma substring_skip (s t : string) (m : nat) :
  substring (String.length s) m (s ++ t) = substring 0 m t.
Proof. induction s as [| c s IH]; simpl; [reflexivity | exact IH]. Qed.

Lemma part_path_name (fm : FileManager) (i : nat) :
  name (part_path fm i) = (part_stem fm i ++ ".pdf")%string.
Proof.
  unfold part_path, part_stem, path_div. cbn [name].
  rewrite !str_append_assoc. reflexivity.
Qed.

Lemma part_stem_length (fm : FileManager) (i : nat) :
  (6 <= String.length (part_stem fm i))%nat.
Proof. unfold part_stem. rewrite !str_length_app. simpl. lia. Qed.

Lemma part_path_stem_suffix (fm : FileManager) (i : nat) :
  path_stem (part_path fm i) = part_stem fm i /\
  path_suffix (part_path fm i) = ".pdf"%string.
Proof.
  unfold path_stem, path_suffix. rewrite part_path_name. unfold rfind.
  rewrite rfind_from_app. simpl (rfind_from ".pdf" _ _ _).
  pose proof (part_stem_length fm i).
  rewrite str_length_app. simpl (String.length ".pdf"). rewrite ?Nat.add_0_l.
  replace (Nat.ltb 0 (String.length (part_stem fm i))) with true
    by (symmetry; apply Nat.ltb_lt; lia).
  replace (Nat.ltb (String.length (part_stem fm i))
             (String.length (part_stem fm i) + 4 - 1)) with true
    by (symmetry; apply Nat.ltb_lt; lia).
  simpl andb. cbv iota. split.
  - apply substring_prefix.
  - replace (String.length (part_stem fm i) + 4 - String.length (part_stem fm i))%nat
      with 4%nat by lia.
    rewrite substring_skip. reflexivity.
Qed.

Lemma conflict_name_part (fm : FileManager) (i k : nat) :
  conflict_name (part_path fm i) k =
  path_div (output_dir fm) (part_stem fm i ++ "_" ++ str_nat k ++ ".pdf")%string.
Proof.
  unfold conflict_name. destruct (part_path_stem_suffix fm i) as [-> ->].
  reflexivity.
Qed.

(** A name [{base_name}_part_{i:03d}] followed by a non-digit determines [i]. *)
Lemma part_stem_tail_inj (fm : FileManager) (i j : nat) (t1 t2 : string) :
  no_digit_head (list_ascii_of_string t1) -> no_digit_head (list_ascii_of_string t2) ->
  (part_stem fm i ++ t1)%string = (part_stem fm j ++ t2)%string ->
  i = j /\ t1 = t2.
Proof.
  intros T1 T2 H. unfold part_stem in H.
  apply (f_equal list_ascii_of_string) in H. rewrite !chars_app in H.
  rewrite <- !app_assoc in H. apply app_inv_head in H. apply app_inv_head in H.
  apply digits_prefix_unique in H; try apply fmt03_digits; try assumption.
  destruct H as [H1 H2]. split.
  - apply chars_inj, fmt03_inj in H1. lia.
  - apply chars_inj. exact H2.
Qed.

Lemma no_digit_head_pdf : no_digit_head (list_ascii_of_string ".pdf").
Proof. reflexivity. Qed.

Lemma no_digit_head_counter (k : nat) :
  no_digit_head (list_ascii_of_string ("_" ++ str_nat k ++ ".pdf")).
Proof. reflexivity. Qed.

Lemma NoDup_map_inj {A B : Type} (f : A -> B) (l : list A) :
  (forall x y, f x = f y -> x = y) -> NoDup l -> NoDup (map f l).
Proof.
  intros Hf Hl. induction Hl as [| x l Hx Hl IH]; simpl; constructor; auto.
  intros Hin. apply in_map_iff in Hin as (y & Hy & Hyl).
  apply Hf in Hy. subst. contradiction.
Qed.

Lemma part_path_inj (fm : FileManager) (i j : nat) :
  part_path fm i = part_path fm j -> i = j.
Proof.
  intros H. apply (f_equal name) in H. rewrite !part_path_name in H.
  apply part_stem_tail_inj in H; [tauto | apply no_digit_head_pdf | apply no_digit_head_pdf].
Qed.

(** [C8] For [pages_per_split > 0], [generate_output_filenames] returns one
    path per part, [(total_pages + pages_per_split - 1) // pages_per_split]
    of them; the [i]-th (1-based) is [output_dir / "{base_name}_part_{i:03d}.pdf"],
    whose stem is the identifier [{base_name}_part_{i:03d}]; and the names are
    pairwise distinct. *)
Theorem generate_output_filenames_positional (fm : FileManager) (T p : Z) :
  0 < p ->
  exists outs, generate_output_filenames fm T p = Some outs /\
    List.length outs = Z.to_nat ((T + p - 1) / p) /\
    (forall i, (1 <= i <= List.length outs)%nat ->
       nth_error outs (i - 1) =
         Some (path_div (output_dir fm) (base_name fm ++ "_part_" ++ fmt03 i ++ ".pdf")%string) /\
       path_stem (path_div (output_dir fm) (base_name fm ++ "_part_" ++ fmt03 i ++ ".pdf")%string)
         = (base_name fm ++ "_part_" ++ fmt03 i)%string) /\
    NoDup outs.
Proof.
  intros Hp. unfold generate_output_filenames.
  replace (p =? 0) with false by lia.
  eexists. split; [reflexivity |].
  rewrite length_map, length_seq. split; [reflexivity |]. split.
  - intros i Hi. rewrite nth_error_map, nth_error_seq.
    replace (Nat.ltb (i - 1) (Z.to_nat ((T + p - 1) / p))) with true
      by (symmetry; apply Nat.ltb_lt; lia).
    simpl option_map. unfold part_path at 1.
    replace (0 + (i - 1))%nat with (i - 1)%nat by lia.
    replace (i - 1 + 1)%nat with i by lia.
    split; [reflexivity |].
    destruct (part_path_stem_suffix fm (i - 1)) as [HS _].
    unfold part_path, part_stem in HS. replace (i - 1 + 1)%nat with i in HS by lia.
    exact HS.
  - apply NoDup_map_inj; [apply part_path_inj | apply seq_NoDup].
Qed.

(** Witness of [C8]: base name [doc], 20 pages in parts of 8. *)
Lemma generate_output_filenames_positional_witness :
  generate_output_filenames {| output_dir := "out"; base_name := "doc" |} 20 8
    = Some [path_div "out" "doc_part_001.pdf"; path_div "out" "doc_part_002.pdf";
            path_div "out" "doc_part_003.pdf"] /\
  exists outs, generate_output_filenames {| output_dir := "out"; base_name := "doc" |} 20 8 = Some outs /\
    List.length outs = Z.to_nat ((20 + 8 - 1) / 8) /\
    (forall i, (1 <= i <= List.length outs)%nat ->
       nth_error outs (i - 1) =
         Some (path_div "out" ("doc" ++ "_part_" ++ fmt03 i ++ ".pdf")%string) /\
       path_stem (path_div "out" ("doc" ++ "_part_" ++ fmt03 i ++ ".pdf")%string)
         = ("doc" ++ "_part_" ++ fmt03 i)%string) /\
    NoDup outs.
Proof.
  split; [reflexivity |].
  apply (generate_output_filenames_positional {| output_dir := "out"; base_name := "doc" |} 20 8).
  lia.
Defined.

(** ** Conflict resolution *)

Section ConflictProofs.

Variable exists_ : path -> bool.

Lemma resolve_loop_spec (fuel : nat) (original_path : path) (c : nat)
      (file_path r : path) :
  resolve_loop exists_ fuel original_path c file_path = Some r ->
  resolved_from exists_ c original_path file_path r.
Proof.
  unfold resolved_from.
  revert c file_path. induction fuel as [| f IH]; intros c file_path H; simpl in H.
  - destruct (exists_ file_path) eqn:E; [discriminate |].
    injection H as <-. left. auto.
  - destruct (exists_ file_path) eqn:E.
    + right. split; [reflexivity |].
      destruct (IH (S c) _ H) as [[E1 ->] | [E1 (k & Hk & -> & E2 & Hj)]].
      * exists c. repeat split; auto. intros j Hj. lia.
      * exists k. repeat split; auto; [lia |].
        intros j Hj'. destruct (Nat.eq_dec j c) as [-> | Hne]; [exact E1 |].
        apply Hj. lia.
    + injection H as <-. left. auto.
Qed.

Lemma resolve_loop_none (fuel : nat) (original_path : path) (c : nat)
      (file_path : path) :
  resolve_loop exists_ fuel original_path c file_path = None ->
  exists_ file_path = true /\
  forall j, (c <= j < c + fuel)%nat -> exists_ (conflict_name original_path j) = true.
Proof.
  revert c file_path. induction fuel as [| f IH]; intros c file_path H; simpl in H.
  - destruct (exists_ file_path); [| discriminate]. split; [reflexivity | intros; lia].
  - destruct (exists_ file_path); [| discriminate].
    destruct (IH (S c) _ H) as [E1 Hj]. split; [reflexivity |].
    intros j Hj'. destruct (Nat.eq_dec j c) as [-> | Hne]; [exact E1 |].
    apply Hj. lia.
Qed.

Lemma handle_conflicts_forall2 (fuel : nat) (outs rs : list path) :
  handle_filename_conflicts exists_ fuel outs = Some rs ->
  Forall2 (fun p r => resolved_from exists_ 1 p p r) outs rs.
Proof.
  revert rs. induction outs as [| p outs IH]; intros rs H; simpl in H.
  - injection H as <-. constructor.
  - destruct (resolve_loop exists_ fuel p 1 p) eqn:E1; [| discriminate].
    destruct (handle_filename_conflicts exists_ fuel outs) eqn:E2; [| discriminate].
    injection H as <-. constructor; [apply resolve_loop_spec with fuel; exact E1 | auto].
Qed.

End ConflictProofs.

(** [C5] Whatever [handle_filename_conflicts] returns, it returns one path per
    proposed path, in order: a path the existence predicate reports as absent
    is returned unchanged; for a path reported as present, the result is
    [parent / "{stem}_{k}{suffix}"] built from the original path's stem and
    suffix, for the least [k >= 1] whose name is reported absent, every counter
    [1 <= j < k] having been tested and reported present. *)
Theorem handle_filename_conflicts_counter (exists_ : path -> bool) (fuel : nat)
        (outs rs : list path) :
  handle_filename_conflicts exists_ fuel outs = Some rs ->
  Forall2 (fun p r =>
    (exists_ p = false /\ r = p) \/
    (exists_ p = true /\
     exists k, (1 <= k)%nat /\
       r = path_div (parent p) (path_stem p ++ "_" ++ str_nat k ++ path_suffix p)%string /\
       exists_ r = false /\
       forall j, (1 <= j < k)%nat ->
         exists_ (path_div (parent p) (path_stem p ++ "_" ++ str_nat j ++ path_suffix p)%string)
         = true)) outs rs.
Proof.
  intros H. apply handle_conflicts_forall2 in H.
  eapply Forall2_impl; [| exact H]. intros p r Hr. exact Hr.
Qed.

(** Witness of [C5]: in [out/], [doc_part_001.pdf] exists, then also
    [doc_part_001_1.pdf]. *)
Lemma handle_filename_conflicts_counter_witness :
  handle_filename_conflicts (snapshot_exists [path_div "out" "doc_part_001.pdf"]) 1
    [path_div "out" "doc_part_001.pdf"] = Some [path_div "out" "doc_part_001_1.pdf"] /\
  handle_filename_conflicts
    (snapshot_exists [path_div "out" "doc_part_001.pdf"; path_div "out" "doc_part_001_1.pdf"]) 2
    [path_div "out" "doc_part_001.pdf"] = Some [path_div "out" "doc_part_001_2.pdf"] /\
  Forall2 (fun p r =>
    (snapshot_exists [path_div "out" "doc_part_001.pdf"; path_div "out" "doc_part_001_1.pdf"] p
       = false /\ r = p) \/
    (snapshot_exists [path_div "out" "doc_part_001.pdf"; path_div "out" "doc_part_001_1.pdf"] p
       = true /\
     exists k, (1 <= k)%nat /\
       r = path_div (parent p) (path_stem p ++ "_" ++ str_nat k ++ path_suffix p)%string /\
       snapshot_exists [path_div "out" "doc_part_001.pdf"; path_div "out" "doc_part_001_1.pdf"] r
         = false /\
       forall j, (1 <= j < k)%nat ->
         snapshot_exists [path_div "out" "doc_part_001.pdf"; path_div "out" "doc_part_001_1.pdf"]
           (path_div (parent p) (path_stem p ++ "_" ++ str_nat j ++ path_suffix p)%string)
         = true))
    [path_div "out" "doc_part_001.pdf"] [path_div "out" "doc_part_001_2.pdf"].
Proof.
  split; [reflexivity |]. split; [reflexivity |].
  apply (handle_filename_conflicts_counter
           (snapshot_exists [path_div "out" "doc_part_001.pdf"; path_div "out" "doc_part_001_1.pdf"])
           2 [path_div "out" "doc_part_001.pdf"] [path_div "out" "doc_part_001_2.pdf"]).
  reflexivity.
Defined.

Lemma part_shaped_inj (fm : FileManager) (i j : nat) (q : path) :
  part_shaped fm i q -> part_shaped fm j q -> i = j.
Proof.
  intros [_ Hi] [_ Hj].
  destruct Hi as [Hi | [k Hi]]; destruct Hj as [Hj | [k' Hj]]; rewrite Hi in Hj;
    apply part_stem_tail_inj in Hj;
    try apply no_digit_head_pdf; try apply no_digit_head_counter; tauto.
Qed.

Lemma resolve_part_shaped (exists_ : path -> bool) (fuel : nat) (fm : FileManager)
      (i : nat) (r : path) :
  resolve_loop exists_ fuel (part_path fm i) 1 (part_path fm i) = Some r ->
  part_shaped fm i r.
Proof.
  intros H. apply resolve_loop_spec in H.
  destruct H as [[_ ->] | [_ (k & _ & -> & _ & _)]].
  - split; [reflexivity | left; apply part_path_name].
  - rewrite conflict_name_part. split; [reflexivity | right; exists k; reflexivity].
Qed.

Lemma handle_conflicts_parts (exists_ : path -> bool) (fuel : nat) (fm : FileManager)
      (n a : nat) (rs : list path) :
  handle_filename_conflicts exists_ fuel (map (part_path fm) (seq a n)) = Some rs ->
  NoDup rs /\ Forall (fun r => exists i, (a <= i)%nat /\ part_shaped fm i r) rs.
Proof.
  revert a rs. induction n as [| n IH]; intros a rs H; simpl in H.
  - injection H as <-. split; constructor.
  - destruct (resolve_loop exists_ fuel (part_path fm a) 1 (part_path fm a)) as [r |] eqn:E1;
      [| discriminate].
    destruct (handle_filename_conflicts exists_ fuel (map (part_path fm) (seq (S a) n)))
      as [rs' |] eqn:E2; [| discriminate].
    injection H as <-. apply resolve_part_shaped in E1.
    destruct (IH (S a) rs' E2) as [ND F]. split.
    + constructor; [| exact ND]. intros Hin.
      rewrite Forall_forall in F. destruct (F r Hin) as (i & Hi & Hs).
      pose proof (part_shaped_inj fm a i r E1 Hs). lia.
    + constructor; [exists a; split; [lia | exact E1] |].
      eapply Forall_impl; [| exact F]. intros x (i & Hi & Hs). exists i. split; [lia | exact Hs].
Qed.

Lemma path_eqb_eq (p q : path) : path_eqb p q = true -> p = q.
Proof.
  destruct p as [pp pn], q as [qp qn]. unfold path_eqb. simpl.
  intros H. apply andb_true_iff in H as [H1 H2].
  apply String.eqb_eq in H1, H2. subst. reflexivity.
Qed.

Lemma snapshot_exists_in (existing : list path) (q : path) :
  snapshot_exists existing q = true -> In q existing.
Proof.
  unfold snapshot_exists. intros H. apply existsb_exists in H as (x & Hx & E).
  apply path_eqb_eq in E. subst. exact Hx.
Qed.

Lemma conflict_name_part_inj (fm : FileManager) (i k k' : nat) :
  conflict_name (part_path fm i) k = conflict_name (part_path fm i) k' -> k = k'.
Proof.
  rewrite !conflict_name_part. intros H. apply (f_equal name) in H. simpl in H.
  apply part_stem_tail_inj in H; try apply no_digit_head_counter.
  destruct H as [_ H]. injection H as H.
  apply (f_equal list_ascii_of_string) in H. rewrite !chars_app in H.
  apply digits_prefix_unique in H; try apply str_nat_digits; try apply no_digit_head_pdf.
  destruct H as [H _]. apply chars_inj, str_nat_inj in H. exact H.
Qed.

Lemma conflict_name_part_new (fm : FileManager) (i k : nat) :
  conflict_name (part_path fm i) k <> part_path fm i.
Proof.
  intros H. apply (f_equal name) in H. rewrite conflict_name_part, part_path_name in H.
  cbn [name path_div] in H. apply part_stem_tail_inj in H; try reflexivity.
  destruct H as [_ H]. discriminate H.
Qed.

(** Against a finite snapshot of [m] files, at most [m] renamings are needed:
    the original name and the [m] first renamed ones are [m + 1] distinct
    paths. *)
Lemma resolve_part_terminates (existing : list path) (fm : FileManager) (i : nat) :
  resolve_loop (snapshot_exists existing) (List.length existing)
               (part_path fm i) 1 (part_path fm i) <> None.
Proof.
  intros H. apply resolve_loop_none in H as [E0 Ej].
  set (cands := part_path fm i ::
                map (conflict_name (part_path fm i)) (seq 1 (List.length existing))).
  assert (ND : NoDup cands).
  { constructor.
    - intros Hin. apply in_map_iff in Hin as (k & Hk & _).
      exact (conflict_name_part_new fm i k Hk).
    - apply NoDup_map_inj; [apply conflict_name_part_inj | apply seq_NoDup]. }
  assert (Inc : incl cands existing).
  { intros q [<- | Hq]; [apply snapshot_exists_in; exact E0 |].
    apply in_map_iff in Hq as (k & <- & Hk). apply in_seq in Hk.
    apply snapshot_exists_in, Ej. lia. }
  pose proof (NoDup_incl_length ND Inc) as HL.
  unfold cands in HL. simpl in HL. rewrite length_map, length_seq in HL. lia.
Qed.

Lemma handle_conflicts_parts_terminate (existing : list path) (fm : FileManager)
      (n a : nat) :
  exists rs, handle_filename_conflicts (snapshot_exists existing) (List.length existing)
               (map (part_path fm) (seq a n)) = Some rs.
Proof.
  revert a. induction n as [| n IH]; intros a; simpl; [eexists; reflexivity |].
  destruct (resolve_loop (snapshot_exists existing) (List.length existing)
              (part_path fm a) 1 (part_path fm a)) eqn:E1.
  - destruct (IH (S a)) as [rs' ->]. eexists. reflexivity.
  - exfalso. exact (resolve_part_terminates existing fm a E1).
Qed.

(** [C4] For [pages_per_split > 0], on the names generated by
    [generate_output_filenames]: against any storage snapshot (a finite list
    of existing paths, fixed during the call) [handle_filename_conflicts]
    terminates, returning one path per name; and for any existence predicate
    fixed during the call, the list it returns has no two equal paths. *)
Theorem handle_filename_conflicts_distinct (fm : FileManager) (T p : Z) :
  0 < p ->
  exists outs, generate_output_filenames fm T p = Some outs /\
    (forall existing : list path, exists rs,
       handle_filename_conflicts (snapshot_exists existing) (List.length existing) outs = Some rs /\
       List.length rs = List.length outs) /\
    (forall (exists_ : path -> bool) (fuel : nat) (rs : list path),
       handle_filename_conflicts exists_ fuel outs = Some rs -> NoDup rs).
Proof.
  intros Hp. unfold generate_output_filenames.
  replace (p =? 0) with false by lia.
  eexists. split; [reflexivity |]. split.
  - intros existing.
    destruct (handle_conflicts_parts_terminate existing fm (Z.to_nat ((T + p - 1) / p)) 0)
      as [rs Hrs].
    exists rs. split; [exact Hrs |].
    apply handle_conflicts_forall2 in Hrs. symmetry. eapply Forall2_length. exact Hrs.
  - intros exists_ fuel rs H. apply handle_conflicts_parts in H. tauto.
Qed.

(** Witness of [C4]: base name [doc], 20 pages in parts of 8. *)
Lemma handle_filename_conflicts_distinct_witness :
  exists outs, generate_output_filenames {| output_dir := "out"; base_name := "doc" |} 20 8 = Some outs /\
    (forall existing : list path, exists rs,
       handle_filename_conflicts (snapshot_exists existing) (List.length existing) outs = Some rs /\
       List.length rs = List.length outs) /\
    (forall (exists_ : path -> bool) (fuel : nat) (rs : list path),
       handle_filename_conflicts exists_ fuel outs = Some rs -> NoDup rs).
Proof.
  apply (handle_filename_conflicts_distinct {| output_dir := "out"; base_name := "doc" |} 20 8).
  lia.
Defined.

(** ** Splitting *)

(** [C3] (counterexample) With 9 pages in parts of 3 and [add_page] failing
    while building part 2, [split_pdf] does not go on to part 3: it writes only
    part 1 and returns [False], one flag rather than three outcomes. *)
Lemma split_pdf_continue_counterexample :
  split_pdf (fun i => Nat.eqb i 1) (fun _ _ => false) doc9 3 parts3
    = ([(path_div "out" "doc_part_001.pdf", [1; 2; 3])], false) /\
  ~ In (path_div "out" "doc_part_003.pdf")
       (map fst (fst (split_pdf (fun i => Nat.eqb i 1) (fun _ _ => false) doc9 3 parts3))).
Proof.
  split; [reflexivity |]. vm_compute. intros [H | []]. discriminate H.
Qed.

Lemma opt_all_map_some {A B : Type} (f : A -> option B) (l : list A) :
  (forall x, In x l -> f x <> None) -> exists ys, opt_all (map f l) = Some ys.
Proof.
  induction l as [| x l IH]; intros H; simpl; [eexists; reflexivity |].
  destruct (f x) as [y |] eqn:E; [| exfalso; exact (H x (or_introl eq_refl) E)].
  destruct IH as [ys Hys]; [intros z Hz; apply H; right; exact Hz |].
  rewrite Hys. eexists. reflexivity.
Qed.

(** Inside the document, page extraction yields a page list. *)
Lemma extract_pages_some (pgs : list Z) (a b : Z) :
  1 <= a -> b <= Z.of_nat (List.length pgs) ->
  exists added, extract_pages pgs a b = Some added.
Proof.
  intros Ha Hb. unfold extract_pages, py_range, py_range_len. simpl.
  apply opt_all_map_some. intros x Hx.
  apply in_map_iff in Hx as (k & <- & Hk). apply in_seq in Hk.
  rewrite Z.div_1_r in Hk.
  unfold py_index. replace (a - 1 + Z.of_nat k * 1 <? 0) with false by lia.
  intros E. apply nth_error_None in E. lia.
Qed.

(** Every range of a loaded document's plan is extractable. *)
Lemma page_ranges_extractable (s : PDFSplitter) (r : PdfReader) (p : Z) (rs : list (Z * Z)) :
  total_pages s = Z.of_nat (List.length (pages r)) -> 0 < p ->
  _get_page_ranges s p = Some rs ->
  Forall (fun ab => exists added, extract_pages (pages r) (fst ab) (snd ab) = Some added) rs.
Proof.
  intros HT Hp H. rewrite get_page_ranges_closed in H by lia. injection H as <-.
  apply Forall_forall. intros ab Hab. apply in_map_iff in Hab as (k & <- & _).
  apply extract_pages_some; unfold range_at; simpl; lia.
Qed.

Lemma skipn_nth_error {A : Type} (l : list A) (i : nat) (x : A) :
  nth_error l i = Some x -> skipn i l = x :: skipn (S i) l.
Proof.
  revert l. induction i as [| i IH]; intros [| y l] H; simpl in *; try discriminate.
  - injection H as ->. reflexivity.
  - apply IH. exact H.
Qed.

(** The loop writes the parts in order up to the first one that does not go
    through, and stops there. *)
Lemma split_loop_first_failure (add_page_fails : nat -> bool)
      (write_fails : nat -> path -> bool) (pgs : list Z) (outs : list path)
      (rs : list (Z * Z)) :
  Forall (fun ab => exists added, extract_pages pgs (fst ab) (snd ab) = Some added) rs ->
  forall i k, (k <= List.length rs)%nat ->
  (forall j, (j < k)%nat -> part_ok add_page_fails write_fails outs (i + j) = true) ->
  (k = List.length rs \/ part_ok add_page_fails write_fails outs (i + k) = false) ->
  map fst (fst (split_loop add_page_fails write_fails pgs outs i rs))
    = firstn k (skipn i outs) /\
  snd (split_loop add_page_fails write_fails pgs outs i rs) = Nat.eqb k (List.length rs).
Proof.
  induction rs as [| [a b] rs IH]; intros Hv i k Hk Hok Hstop; simpl in Hk.
  - assert (k = 0%nat) by lia. subst. simpl. auto.
  - inversion Hv as [| ? ? [added Hadd] Hv']; subst. simpl in Hadd.
    simpl. rewrite Hadd.
    destruct k as [| k].
    + destruct Hstop as [Hstop | Hstop]; [discriminate |].
      rewrite Nat.add_0_r in Hstop. unfold part_ok in Hstop.
      destruct (add_page_fails i); [simpl; auto |].
      destruct (nth_error outs i) as [o |]; [| simpl; auto].
      simpl in Hstop. apply negb_false_iff in Hstop. rewrite Hstop. simpl. auto.
    + pose proof (Hok 0%nat ltac:(lia)) as H0. rewrite Nat.add_0_r in H0.
      unfold part_ok in H0. apply andb_true_iff in H0 as [H0a H0b].
      apply negb_true_iff in H0a. rewrite H0a.
      destruct (nth_error outs i) as [o |] eqn:Eo; [| discriminate].
      apply negb_true_iff in H0b. rewrite H0b.
      destruct (IH Hv' (S i) k ltac:(lia)) as [IH1 IH2].
      { intros j Hj. replace (S i + j)%nat with (i + S j)%nat by lia. apply Hok. lia. }
      { destruct Hstop as [Hs | Hs]; [left; simpl in Hs; lia | right].
        assert (E : (S i + k = i + S k)%nat) by lia. rewrite E. exact Hs. }
      destruct (split_loop add_page_fails write_fails pgs outs (S i) rs) as [w ok].
      simpl in *. rewrite (skipn_nth_error outs i o Eo). simpl. rewrite IH1, IH2. auto.
Qed.

(** [C3] (amended) For a loaded document and [pages_per_split > 0], with at
    least one output path per range, [split_pdf] processes the ranges in
    order and stops at the first range [k] (0-based) whose pages cannot be
    added or whose file cannot be written: the files of ranges [0 .. k-1] are
    written, no later range is attempted, and it returns [False]. When no
    range fails it writes one file per range and returns [True]. *)
Theorem split_pdf_stops_at_first_failure (add_page_fails : nat -> bool)
        (write_fails : nat -> path -> bool) (s : PDFSplitter) (r : PdfReader)
        (p : Z) (outs : list path) (rs : list (Z * Z)) :
  reader s = Some r -> total_pages s = Z.of_nat (List.length (pages r)) -> 0 < p ->
  _get_page_ranges s p = Some rs -> (List.length rs <= List.length outs)%nat ->
  (forall k, (k < List.length rs)%nat ->
     (forall j, (j < k)%nat -> part_ok add_page_fails write_fails outs j = true) ->
     part_ok add_page_fails write_fails outs k = false ->
     map fst (fst (split_pdf add_page_fails write_fails s p outs)) = firstn k outs /\
     snd (split_pdf add_page_fails write_fails s p outs) = false) /\
  ((forall j, (j < List.length rs)%nat -> part_ok add_page_fails write_fails outs j = true) ->
     map fst (fst (split_pdf add_page_fails write_fails s p outs))
       = firstn (List.length rs) outs /\
     snd (split_pdf add_page_fails write_fails s p outs) = true).
Proof.
  intros Hr HT Hp Hrs Hlen.
  pose proof (page_ranges_extractable s r p rs HT Hp Hrs) as Hv.
  unfold split_pdf. rewrite Hr, Hrs. split.
  - intros k Hk Hok Hfail.
    destruct (split_loop_first_failure add_page_fails write_fails (pages r) outs rs Hv 0 k)
      as [H1 H2]; [lia | exact Hok | right; exact Hfail |].
    split; [exact H1 | rewrite H2; apply Nat.eqb_neq; lia].
  - intros Hok.
    destruct (split_loop_first_failure add_page_fails write_fails (pages r) outs rs Hv
                0 (List.length rs)) as [H1 H2]; [lia | exact Hok | left; reflexivity |].
    split; [exact H1 | rewrite H2; apply Nat.eqb_refl].
Qed.

(** Witness of [C3]: 9 pages in parts of 3, part 2 failing. *)
Lemma split_pdf_stops_at_first_failure_witness :
  map fst (fst (split_pdf (fun i => Nat.eqb i 1) (fun _ _ => false) doc9 3 parts3))
    = firstn 1 parts3 /\
  snd (split_pdf (fun i => Nat.eqb i 1) (fun _ _ => false) doc9 3 parts3) = false.
Proof.
  destruct (split_pdf_stops_at_first_failure (fun i => Nat.eqb i 1) (fun _ _ => false)
              doc9 {| pages := [1; 2; 3; 4; 5; 6; 7; 8; 9] |} 3 parts3
              [(1, 3); (4, 6); (7, 9)] eq_refl eq_refl ltac:(lia) eq_refl ltac:(simpl; lia))
    as [H _].
  apply H; [simpl; lia | | reflexivity].
  intros j Hj. assert (j = 0%nat) by lia. subst. reflexivity.
Defined.

(** [C7] (counterexample) [split_pdf] does not check that there is one output
    path per range: with 3 ranges and 4 paths it writes 3 files, ignores the
    fourth path and reports success. *)
Lemma split_pdf_length_mismatch_counterexample :
  split_pdf (fun _ => false) (fun _ _ => false) doc9 3
    (parts3 ++ [path_div "out" "doc_part_004.pdf"])
  = ([(path_div "out" "doc_part_001.pdf", [1; 2; 3]);
      (path_div "out" "doc_part_002.pdf", [4; 5; 6]);
      (path_div "out" "doc_part_003.pdf", [7; 8; 9])], true).
Proof. reflexivity. Qed.

(** [C7] (amended) [split_pdf] performs no length check between the output
    paths and the ranges. For a loaded document and [pages_per_split > 0],
    when no page addition or write fails: with at least as many paths as
    ranges it writes the first [len(ranges)] paths and returns [True]; with
    fewer paths it writes all of them (the first [len(output_files)] parts)
    and then the [IndexError] on [output_files[i]] is caught like any
    exception, returning [False]. *)
Theorem split_pdf_no_length_check (add_page_fails : nat -> bool)
        (write_fails : nat -> path -> bool) (s : PDFSplitter) (r : PdfReader)
        (p : Z) (outs : list path) (rs : list (Z * Z)) :
  reader s = Some r -> total_pages s = Z.of_nat (List.length (pages r)) -> 0 < p ->
  _get_page_ranges s p = Some rs ->
  (forall j, add_page_fails j = false) -> (forall j o, write_fails j o = false) ->
  ((List.length rs <= List.length outs)%nat ->
     map fst (fst (split_pdf add_page_fails write_fails s p outs))
       = firstn (List.length rs) outs /\
     snd (split_pdf add_page_fails write_fails s p outs) = true) /\
  ((List.length outs < List.length rs)%nat ->
     map fst (fst (split_pdf add_page_fails write_fails s p outs)) = outs /\
     snd (split_pdf add_page_fails write_fails s p outs) = false).
Proof.
  intros Hr HT Hp Hrs Ha Hw.
  pose proof (page_ranges_extractable s r p rs HT Hp Hrs) as Hv.
  assert (Hok : forall j, (j < List.length outs)%nat ->
            part_ok add_page_fails write_fails outs j = true).
  { intros j Hj. unfold part_ok. rewrite Ha. simpl.
    destruct (nth_error outs j) as [o |] eqn:E; [rewrite Hw; reflexivity |].
    apply nth_error_None in E. lia. }
  unfold split_pdf. rewrite Hr, Hrs. split.
  - intros Hlen.
    destruct (split_loop_first_failure add_page_fails write_fails (pages r) outs rs Hv
                0 (List.length rs)) as [H1 H2];
      [lia | intros j Hj; apply Hok; lia | left; reflexivity |].
    split; [exact H1 | rewrite H2; apply Nat.eqb_refl].
  - intros Hlen.
    destruct (split_loop_first_failure add_page_fails write_fails (pages r) outs rs Hv
                0 (List.length outs)) as [H1 H2];
      [lia | intros j Hj; apply Hok; lia | right |].
    + unfold part_ok. simpl. replace (nth_error outs (List.length outs)) with (@None path)
        by (symmetry; apply nth_error_None; lia).
      apply andb_false_r.
    + split.
      * rewrite H1. simpl. apply firstn_all.
      * rewrite H2. apply Nat.eqb_neq. lia.
Qed.

(** Witness of [C7]: 9 pages in parts of 3, with 4 and with 2 output paths. *)
Lemma split_pdf_no_length_check_witness :
  (map fst (fst (split_pdf (fun _ => false) (fun _ _ => false) doc9 3
                  (parts3 ++ [path_div "out" "doc_part_004.pdf"])))
     = parts3 /\
   snd (split_pdf (fun _ => false) (fun _ _ => false) doc9 3
          (parts3 ++ [path_div "out" "doc_part_004.pdf"])) = true) /\
  (map fst (fst (split_pdf (fun _ => false) (fun _ _ => false) doc9 3 (firstn 2 parts3)))
     = firstn 2 parts3 /\
   snd (split_pdf (fun _ => false) (fun _ _ => false) doc9 3 (firstn 2 parts3)) = false).
Proof.
  split.
  - destruct (split_pdf_no_length_check (fun _ => false) (fun _ _ => false) doc9
                {| pages := [1; 2; 3; 4; 5; 6; 7; 8; 9] |} 3
                (parts3 ++ [path_div "out" "doc_part_004.pdf"]) [(1, 3); (4, 6); (7, 9)]
                eq_refl eq_refl ltac:(lia) eq_refl (fun _ => eq_refl) (fun _ _ => eq_refl))
      as [H _].
    apply H. simpl. lia.
  - destruct (split_pdf_no_length_check (fun _ => false) (fun _ _ => false) doc9
                {| pages := [1; 2; 3; 4; 5; 6; 7; 8; 9] |} 3
                (firstn 2 parts3) [(1, 3); (4, 6); (7, 9)]
                eq_refl eq_refl ltac:(lia) eq_refl (fun _ => eq_refl) (fun _ _ => eq_refl))
      as [_ H].
    apply H. simpl. lia.
Defined.

(** ** Printing *)

Lemma dict_key_existsb {V : Type} (d : list (string * V)) (k : string) :
  existsb (fun kv => String.eqb (fst kv) k) d = true <-> In k (map fst d).
Proof.
  rewrite existsb_exists. split.
  - intros (kv & Hin & E). apply String.eqb_eq in E. subst.
    apply in_map. exact Hin.
  - intros Hin. apply in_map_iff in Hin as (kv & <- & Hin).
    exists kv. split; [exact Hin | apply String.eqb_refl].
Qed.

Lemma dict_set_keys {V : Type} (d : list (string * V)) (k : string) (v : V) :
  map fst (dict_set d k v) =
  if existsb (fun kv => String.eqb (fst kv) k) d then map fst d else map fst d ++ [k].
Proof.
  unfold dict_set. destruct (existsb _ d).
  - rewrite map_map. apply map_ext. intros [k' v']. simpl.
    destruct (String.eqb_spec k' k); simpl; congruence.
  - rewrite map_app. reflexivity.
Qed.

Lemma print_loop_spec (print_file : nat -> path -> bool * string) (fps : list path) :
  forall i acc,
  fst (print_loop print_file i fps acc) = fps /\
  (NoDup (map fst acc) -> NoDup (map fst (snd (print_loop print_file i fps acc)))) /\
  (forall k, In k (map fst (snd (print_loop print_file i fps acc))) <->
             In k (map fst acc) \/ exists p, In p fps /\ path_str p = k) /\
  (NoDup (map fst acc ++ map path_str fps) ->
   snd (print_loop print_file i fps acc) =
   acc ++ map (fun ip => (path_str (snd ip), print_file (fst ip) (snd ip)))
              (combine (seq i (List.length fps)) fps)).
Proof.
  induction fps as [| fp rest IH]; intros i acc; simpl.
  - rewrite app_nil_r. split; [reflexivity |]. split; [auto |].
    split; [| intros _; symmetry; apply app_nil_r].
    intros k. split; [intros H; left; exact H | intros [H | (p & [] & _)]; exact H].
  - destruct (print_file i fp) as [success message] eqn:Ep.
    set (acc' := dict_set acc (path_str fp) (success, message)).
    destruct (IH (S i) acc') as (IH1 & IH2 & IH3 & IH4).
    destruct (print_loop print_file (S i) rest acc') as [dispatched final] eqn:El.
    simpl in *. rewrite IH1. split; [reflexivity |].
    assert (Hk : map fst acc' = if existsb (fun kv => String.eqb (fst kv) (path_str fp)) acc
                               then map fst acc else map fst acc ++ [path_str fp])
      by apply dict_set_keys.
    split; [| split].
    + intros ND. apply IH2. rewrite Hk.
      destruct (existsb _ acc) eqn:Ex; [exact ND |].
      apply NoDup_app; [exact ND | repeat constructor; auto |].
      intros x Hx [<- | []]. apply dict_key_existsb in Hx. congruence.
    + intros k. rewrite IH3, Hk. split.
      * intros [H | (p & Hp & <-)]; [| right; exists p; auto].
        destruct (existsb _ acc) eqn:Ex; [left; exact H |].
        apply in_app_or in H as [H | [<- | []]]; [left; exact H | right; exists fp; auto].
      * intros [H | (p & [<- | Hp] & <-)].
        -- left. destruct (existsb _ acc); [exact H | apply in_or_app; left; exact H].
        -- left. destruct (existsb _ acc) eqn:Ex;
             [apply dict_key_existsb; exact Ex | apply in_or_app; right; left; reflexivity].
        -- right. exists p. auto.
    + intros ND.
      assert (Hnew : existsb (fun kv => String.eqb (fst kv) (path_str fp)) acc = false).
      { destruct (existsb _ acc) eqn:Ex; [| reflexivity].
        apply dict_key_existsb in Ex. apply NoDup_remove_2 in ND.
        exfalso. apply ND. apply in_or_app. left. exact Ex. }
      assert (Hacc : acc' = acc ++ [(path_str fp, (success, message))]).
      { unfold acc', dict_set. rewrite Hnew. reflexivity. }
      rewrite IH4.
      * rewrite Hacc, <- app_assoc. simpl. rewrite ?Ep. reflexivity.
      * rewrite Hk, Hnew, <- app_assoc. exact ND.
Qed.

(** [C9] [print_multiple_files] calls [print_file] once per input path, in
    input order, whatever the earlier calls returned; the keys of the results
    dict are pairwise distinct and are exactly the [str] of the input paths;
    and when those are distinct the dict holds, in input order, each path's
    key with the outcome of its own call. *)
Theorem print_multiple_files_complete (print_file : nat -> path -> bool * string)
        (file_paths : list path) :
  fst (print_multiple_files print_file file_paths) = file_paths /\
  NoDup (map fst (snd (print_multiple_files print_file file_paths))) /\
  (forall k, In k (map fst (snd (print_multiple_files print_file file_paths))) <->
             exists p, In p file_paths /\ path_str p = k) /\
  (NoDup (map path_str file_paths) ->
   snd (print_multiple_files print_file file_paths) =
   map (fun ip => (path_str (snd ip), print_file (fst ip) (snd ip)))
       (combine (seq 0 (List.length file_paths)) file_paths)).
Proof.
  unfold print_multiple_files.
  destruct (print_loop_spec print_file file_paths 0 []) as (H1 & H2 & H3 & H4).
  split; [exact H1 |]. split; [apply H2; constructor |]. split.
  - intros k. rewrite H3. simpl. split; [intros [[] | H]; exact H | intros H; right; exact H].
  - intros ND. apply H4. exact ND.
Qed.

(** Witness of [C9]: three files, the second submission failing. *)
Lemma print_multiple_files_complete_witness :
  print_multiple_files print_scenario parts3 =
  (parts3,
   [("out/doc_part_001.pdf"%string, (true, "Sent to printer: default"%string));
    ("out/doc_part_002.pdf"%string, (false, "Linux print failed"%string));
    ("out/doc_part_003.pdf"%string, (true, "Sent to printer: default"%string))]) /\
  (NoDup (map path_str parts3) ->
   snd (print_multiple_files print_scenario parts3) =
   map (fun ip => (path_str (snd ip), print_scenario (fst ip) (snd ip)))
       (combine (seq 0 (List.length parts3)) parts3)).
Proof.
  split; [reflexivity |].
  destruct (print_multiple_files_complete print_scenario parts3) as (_ & _ & _ & H).
  exact H.
Defined.

(** Witness of [C2]: a 9-page document with caps 9, 0 and 5. *)
Lemma validate_split_parameters_exact_witness :
  validate_split_parameters doc9 9 =
    (false, "Pages per split (9) should be less than total pages (9)"%string) /\
  fst (validate_split_parameters doc9 0) = false /\
  snd (validate_split_parameters doc9 0) <> ""%string /\
  validate_split_parameters doc9 5 = (true, ""%string).
Proof.
  split; [reflexivity |].
  destruct (validate_split_parameters_exact doc9 0) as [H1 _].
  destruct (validate_split_parameters_exact doc9 5) as [_ H2].
  destruct H1 as [H1a H1b]; [left; lia |].
  split; [exact H1a |]. split; [exact H1b |]. apply H2. simpl. lia.
Defined.

(** ** Page content of the parts *)

Lemma index_run (pgs : list Z) (lo : Z) (n m : nat) :
  0 <= lo -> lo + Z.of_nat m + Z.of_nat n <= Z.of_nat (List.length pgs) ->
  opt_all (map (py_index pgs) (map (fun k => lo + Z.of_nat k * 1) (seq m n)))
  = Some (firstn n (skipn (Z.to_nat (lo + Z.of_nat m)) pgs)).
Proof.
  revert m. induction n as [| n IH]; intros m H0 Hn; [reflexivity |].
  destruct (nth_error pgs (Z.to_nat (lo + Z.of_nat m))) as [x |] eqn:Ex.
  2:{ apply nth_error_None in Ex. lia. }
  cbn [seq map opt_all]. unfold py_index at 1.
  replace (lo + Z.of_nat m * 1 <? 0) with false by lia.
  replace (Z.to_nat (lo + Z.of_nat m * 1)) with (Z.to_nat (lo + Z.of_nat m)) by lia.
  rewrite Ex, IH by lia. rewrite (skipn_nth_error pgs _ x Ex).
  replace (Z.to_nat (lo + Z.of_nat (S m))) with (S (Z.to_nat (lo + Z.of_nat m))) by lia.
  reflexivity.
Qed.

Lemma extract_pages_slice (pgs : list Z) (a b : Z) :
  1 <= a -> b <= Z.of_nat (List.length pgs) ->
  extract_pages pgs a b = Some (page_slice pgs a b).
Proof.
  intros Ha Hb. unfold extract_pages, py_range, py_range_len, page_slice.
  replace (1 =? 0) with false by reflexivity. replace (0 <? 1) with true by reflexivity.
  cbv iota beta. rewrite Z.div_1_r.
  replace (Z.to_nat (Z.max 0 (b - (a - 1) + 1 - 1))) with (Z.to_nat (b - a + 1)) by lia.
  destruct (Z_le_gt_dec a (b + 1)) as [Hab | Hab].
  - rewrite index_run by lia. do 3 f_equal. lia.
  - replace (Z.to_nat (b - a + 1)) with 0%nat by lia. reflexivity.
Qed.

Lemma page_slice_length (pgs : list Z) (a b : Z) :
  1 <= a <= b + 1 -> b <= Z.of_nat (List.length pgs) ->
  Z.of_nat (List.length (page_slice pgs a b)) = b - a + 1.
Proof.
  intros Ha Hb. unfold page_slice. rewrite length_firstn, length_skipn. lia.
Qed.

(** A run of the loop that returns [True] went through every part. *)
Lemma split_loop_success (add_page_fails : nat -> bool) (write_fails : nat -> path -> bool)
      (pgs : list Z) (outs : list path) (rs : list (Z * Z)) (i : nat) :
  Forall (fun ab => 1 <= fst ab /\ snd ab <= Z.of_nat (List.length pgs)) rs ->
  snd (split_loop add_page_fails write_fails pgs outs i rs) = true ->
  map snd (fst (split_loop add_page_fails write_fails pgs outs i rs))
    = map (fun ab => page_slice pgs (fst ab) (snd ab)) rs /\
  map fst (fst (split_loop add_page_fails write_fails pgs outs i rs))
    = firstn (List.length rs) (skipn i outs) /\
  (forall j, (j < List.length rs)%nat -> part_ok add_page_fails write_fails outs (i + j) = true).
Proof.
  revert i. induction rs as [| [a b] rs IH]; intros i Hv Hok.
  - repeat split; intros; simpl in *; lia.
  - inversion Hv as [| ? ? [Ha Hb] Hv']; subst. simpl in Ha, Hb.
    cbn [split_loop] in Hok |- *. rewrite (extract_pages_slice pgs a b Ha Hb) in Hok |- *.
    destruct (add_page_fails i) eqn:Ea; [discriminate |].
    destruct (nth_error outs i) as [o |] eqn:Eo; [| discriminate].
    destruct (write_fails i o) eqn:Ew; [discriminate |].
    destruct (split_loop add_page_fails write_fails pgs outs (S i) rs) as [w ok] eqn:Es.
    simpl in Hok. subst ok.
    destruct (IH (S i) Hv') as (IH1 & IH2 & IH3); [rewrite Es; reflexivity |].
    rewrite Es in IH1, IH2. simpl in IH1, IH2 |- *.
    rewrite IH1, IH2, (skipn_nth_error outs i o Eo). repeat split.
    intros [| j] Hj.
    + unfold part_ok. rewrite Nat.add_0_r, Ea, Eo, Ew. reflexivity.
    + replace (i + S j)%nat with (S i + j)%nat by lia. apply IH3. simpl in Hj. lia.
Qed.

Lemma firstn_split {A : Type} (l : list A) (m n : nat) :
  (m <= n)%nat -> firstn m l ++ firstn (n - m) (skipn m l) = firstn n l.
Proof.
  intros H. rewrite <- skipn_firstn_comm.
  rewrite <- (firstn_skipn m (firstn n l)) at 2. rewrite firstn_firstn.
  replace (Nat.min m n) with m by lia. reflexivity.
Qed.

Lemma range_at_valid (T p : Z) (k : nat) :
  0 < p -> 0 <= T -> (k < Z.to_nat ((T + p - 1) / p))%nat ->
  1 <= fst (range_at T p k) <= snd (range_at T p k) /\ snd (range_at T p k) <= T.
Proof.
  intros Hp HT Hk. pose proof (ceil_div_bounds T p Hp) as [H1 H2].
  assert (Z.of_nat k * p + p <= p * ((T + p - 1) / p)) by nia.
  unfold range_at. simpl. nia.
Qed.

Lemma concat_slices (pgs : list Z) (p : Z) (n : nat) :
  0 < p ->
  (n <= Z.to_nat ((Z.of_nat (List.length pgs) + p - 1) / p))%nat ->
  List.concat (map (fun ab => page_slice pgs (fst ab) (snd ab))
                   (map (range_at (Z.of_nat (List.length pgs)) p) (seq 0 n)))
  = firstn (Z.to_nat (Z.min (Z.of_nat n * p) (Z.of_nat (List.length pgs)))) pgs.
Proof.
  intros Hp. pose proof (ceil_div_bounds (Z.of_nat (List.length pgs)) p Hp) as [H1 H2].
  induction n as [| n IH]; intros Hn.
  - simpl. replace (Z.to_nat (Z.min 0 (Z.of_nat (List.length pgs)))) with 0%nat by lia.
    reflexivity.
  - rewrite seq_S, !map_app, concat_app, IH by lia.
    cbn [map List.concat]. rewrite app_nil_r. unfold page_slice, range_at. cbn [fst snd].
    set (T := Z.of_nat (List.length pgs)) in *.
    assert (Z.of_nat n * p + p <= p * ((T + p - 1) / p)) by nia.
    replace (Z.to_nat (Z.min (Z.of_nat n * p) T)) with (Z.to_nat (Z.of_nat n * p)) by lia.
    replace (Z.to_nat (Z.of_nat (0 + n) * p + 1 - 1)) with (Z.to_nat (Z.of_nat n * p)) by lia.
    replace (Z.to_nat (Z.min (Z.of_nat (0 + n) * p + p) T - (Z.of_nat (0 + n) * p + 1) + 1))
      with (Z.to_nat (Z.min (Z.of_nat n * p + p) T) - Z.to_nat (Z.of_nat n * p))%nat by lia.
    rewrite firstn_split by lia. f_equal. lia.
Qed.

(** [X1] When [split_pdf] on a loaded document returns [True], the files it
    wrote hold the document's pages in order, each page exactly once: the
    file of range [k] holds the pages [start_k .. end_k], and the files'
    pages, concatenated, give back the document's page list. *)
Theorem split_pdf_covers_document (add_page_fails : nat -> bool)
        (write_fails : nat -> path -> bool) (s : PDFSplitter) (r : PdfReader)
        (p : Z) (outs : list path) :
  reader s = Some r -> total_pages s = Z.of_nat (List.length (pages r)) -> 0 < p ->
  snd (split_pdf add_page_fails write_fails s p outs) = true ->
  exists rs, _get_page_ranges s p = Some rs /\
    map snd (fst (split_pdf add_page_fails write_fails s p outs))
      = map (fun ab => page_slice (pages r) (fst ab) (snd ab)) rs /\
    List.concat (map snd (fst (split_pdf add_page_fails write_fails s p outs))) = pages r.
Proof.
  intros Hr HT Hp Hok. unfold split_pdf in Hok |- *. rewrite Hr in Hok |- *.
  rewrite get_page_ranges_closed in Hok |- * by lia.
  eexists. split; [reflexivity |].
  rewrite HT in Hok |- *.
  pose proof (ceil_div_nonneg (Z.of_nat (List.length (pages r))) p Hp ltac:(lia)).
  destruct (split_loop_success add_page_fails write_fails (pages r) outs
              (map (range_at (Z.of_nat (List.length (pages r))) p)
                   (seq 0 (Z.to_nat ((Z.of_nat (List.length (pages r)) + p - 1) / p))))
              0) as (H1 & _ & _); [| exact Hok |].
  { apply Forall_forall. intros ab Hab. apply in_map_iff in Hab as (k & <- & Hk).
    apply in_seq in Hk. pose proof (range_at_valid (Z.of_nat (List.length (pages r))) p k Hp ltac:(lia) ltac:(lia)). lia. }
  split; [exact H1 |]. rewrite H1, concat_slices by lia.
  pose proof (ceil_div_bounds (Z.of_nat (List.length (pages r))) p Hp) as [B1 B2].
  apply firstn_all2. lia.
Qed.

(** Witness of [X1]: 9 pages in parts of 3. *)
Lemma split_pdf_covers_document_witness :
  exists rs, _get_page_ranges doc9 3 = Some rs /\
    map snd (fst (split_pdf (fun _ => false) (fun _ _ => false) doc9 3 parts3))
      = map (fun ab => page_slice [1; 2; 3; 4; 5; 6; 7; 8; 9] (fst ab) (snd ab)) rs /\
    List.concat (map snd (fst (split_pdf (fun _ => false) (fun _ _ => false) doc9 3 parts3)))
      = [1; 2; 3; 4; 5; 6; 7; 8; 9].
Proof.
  apply (split_pdf_covers_document (fun _ => false) (fun _ _ => false) doc9
           {| pages := [1; 2; 3; 4; 5; 6; 7; 8; 9] |} 3 parts3 eq_refl eq_refl);
    [lia | reflexivity].
Defined.

(** [X2] On a loaded document, [extract_page_range] writes a file exactly
    when [1 <= start_page <= end_page <= total_pages] and neither adding the
    pages nor writing raises; the file then holds the pages
    [start_page .. end_page], [end_page - start_page + 1] of them. In every
    other case it returns [False] and writes nothing. *)
Theorem extract_page_range_spec (add_page_raises : bool) (write_raises : path -> bool)
        (s : PDFSplitter) (r : PdfReader) (a b : Z) (o : path) :
  reader s = Some r -> total_pages s = Z.of_nat (List.length (pages r)) ->
  extract_page_range add_page_raises write_raises s a b o =
    (if (1 <=? a) && (a <=? b) && (b <=? total_pages s)
        && negb add_page_raises && negb (write_raises o)
     then ([(o, page_slice (pages r) a b)], true) else ([], false)) /\
  (1 <= a <= b -> b <= total_pages s ->
   Z.of_nat (List.length (page_slice (pages r) a b)) = b - a + 1).
Proof.
  intros Hr HT. split.
  - unfold extract_page_range. rewrite Hr.
    assert (Eq : (1 <=? a) && (a <=? b) && (b <=? total_pages s)
                 = negb ((a <? 1) || (total_pages s <? b) || (b <? a))).
    { destruct (Z.leb_spec 1 a), (Z.leb_spec a b), (Z.leb_spec b (total_pages s)),
        (Z.ltb_spec a 1), (Z.ltb_spec (total_pages s) b), (Z.ltb_spec b a);
        simpl; try reflexivity; lia. }
    rewrite Eq. destruct ((a <? 1) || (total_pages s <? b) || (b <? a)) eqn:Einv;
      [reflexivity |].
    apply orb_false_iff in Einv as [Einv E3]. apply orb_false_iff in Einv as [E1 E2].
    apply Z.ltb_ge in E1, E2, E3.
    rewrite extract_pages_slice by lia. simpl.
    destruct add_page_raises, (write_raises o); reflexivity.
  - intros Hab Hb. apply page_slice_length; lia.
Qed.

(** Witness of [X2]: pages 4 to 6 of the 9-page document. *)
Lemma extract_page_range_spec_witness :
  extract_page_range false (fun _ => false) doc9 4 6 (path_div "out" "x.pdf") =
    (if (1 <=? 4) && (4 <=? 6) && (6 <=? total_pages doc9) && negb false && negb false
     then ([(path_div "out" "x.pdf", page_slice [1; 2; 3; 4; 5; 6; 7; 8; 9] 4 6)], true)
     else ([], false)) /\
  (1 <= 4 <= 6 -> 6 <= total_pages doc9 ->
   Z.of_nat (List.length (page_slice [1; 2; 3; 4; 5; 6; 7; 8; 9] 4 6)) = 6 - 4 + 1).
Proof.
  apply (extract_page_range_spec false (fun _ => false) doc9
           {| pages := [1; 2; 3; 4; 5; 6; 7; 8; 9] |} 4 6 (path_div "out" "x.pdf"));
    reflexivity.
Defined.

Lemma forall2_of_map_snd {A B C : Type} (f : B -> C) (P : B -> Prop) (w : list (A * C))
      (rs : list B) :
  map snd w = map f rs -> Forall P rs ->
  Forall2 (fun x ab => snd x = f ab /\ P ab) w rs.
Proof.
  revert rs. induction w as [| x w IH]; intros [| ab rs] H HP; simpl in H;
    try discriminate; [constructor |].
  injection H as H1 H2. inversion HP; subst. constructor; auto.
Qed.

(** [X3] [split_pdf] and [extract_page_range] agree: when [split_pdf] on a
    loaded document returns [True], each file it wrote, paired with its
    range, is exactly what [extract_page_range] writes for that range and
    path when nothing raises. *)
Theorem split_pdf_parts_are_extractions (add_page_fails : nat -> bool)
        (write_fails : nat -> path -> bool) (s : PDFSplitter) (r : PdfReader)
        (p : Z) (outs : list path) :
  reader s = Some r -> total_pages s = Z.of_nat (List.length (pages r)) -> 0 < p ->
  snd (split_pdf add_page_fails write_fails s p outs) = true ->
  exists rs, _get_page_ranges s p = Some rs /\
    Forall2 (fun w ab => extract_page_range false (fun _ => false) s (fst ab) (snd ab) (fst w)
                         = ([w], true))
            (fst (split_pdf add_page_fails write_fails s p outs)) rs.
Proof.
  intros Hr HT Hp Hok.
  destruct (split_pdf_covers_document add_page_fails write_fails s r p outs Hr HT Hp Hok)
    as (rs & Hrs & Hsl & _).
  exists rs. split; [exact Hrs |].
  assert (Hv : Forall (fun ab => 1 <= fst ab <= snd ab /\ snd ab <= total_pages s) rs).
  { rewrite get_page_ranges_closed in Hrs by lia. injection Hrs as <-.
    apply Forall_forall. intros ab Hab. apply in_map_iff in Hab as (k & <- & Hk).
    apply in_seq in Hk. apply range_at_valid; lia. }
  pose proof (forall2_of_map_snd _ _ _ _ Hsl Hv) as H2.
  eapply Forall2_impl; [| exact H2]. intros [o pg] [a b] [E [Hab Hb]]. simpl in *.
  destruct (extract_page_range_spec false (fun _ => false) s r a b o Hr HT) as [Hx _].
  rewrite Hx, E. simpl.
  replace ((1 <=? a) && (a <=? b) && (b <=? total_pages s)) with true
    by (symmetry; repeat rewrite andb_true_iff; repeat split; apply Z.leb_le; lia).
  reflexivity.
Qed.

(** Witness of [X3]: 9 pages in parts of 3. *)
Lemma split_pdf_parts_are_extractions_witness :
  exists rs, _get_page_ranges doc9 3 = Some rs /\
    Forall2 (fun w ab => extract_page_range false (fun _ => false) doc9 (fst ab) (snd ab) (fst w)
                         = ([w], true))
            (fst (split_pdf (fun _ => false) (fun _ _ => false) doc9 3 parts3)) rs.
Proof.
  apply (split_pdf_parts_are_extractions (fun _ => false) (fun _ _ => false) doc9
           {| pages := [1; 2; 3; 4; 5; 6; 7; 8; 9] |} 3 parts3 eq_refl eq_refl);
    [lia | reflexivity].
Defined.

(** [X4] For [pages_per_split > 0], [generate_output_filenames] gives one
    name per range of [_get_page_ranges], and the preview's number of output
    files ([calculate_split_info]'s [num_splits]) is that same count. *)
Theorem output_names_match_ranges (fm : FileManager) (s : PDFSplitter) (p : Z) :
  0 < p -> 0 <= total_pages s ->
  exists outs rs info,
    generate_output_filenames fm (total_pages s) p = Some outs /\
    _get_page_ranges s p = Some rs /\
    calculate_split_info s p = Some info /\
    List.length outs = List.length rs /\
    num_splits info = Z.of_nat (List.length outs).
Proof.
  intros Hp HT. unfold generate_output_filenames, calculate_split_info.
  replace (p =? 0) with false by lia. rewrite get_page_ranges_closed by lia.
  do 3 eexists. repeat split.
  rewrite !length_map, !length_seq. reflexivity.
  simpl. rewrite length_map, length_seq, Z2Nat.id; [reflexivity |].
  apply ceil_div_nonneg; lia.
Qed.

(** Witness of [X4]: 20 pages in parts of 8. *)
Lemma output_names_match_ranges_witness :
  exists outs rs info,
    generate_output_filenames {| output_dir := "out"; base_name := "doc" |}
      (total_pages {| input_file := "doc.pdf"; reader := None; total_pages := 20 |}) 8
      = Some outs /\
    _get_page_ranges {| input_file := "doc.pdf"; reader := None; total_pages := 20 |} 8
      = Some rs /\
    calculate_split_info {| input_file := "doc.pdf"; reader := None; total_pages := 20 |} 8
      = Some info /\
    List.length outs = List.length rs /\
    num_splits info = Z.of_nat (List.length outs).
Proof.
  apply output_names_match_ranges; simpl; lia.
Defined.

(** [X5] [split_pdf] does not check [pages_per_split] itself: on a loaded
    document with [pages_per_split = 0] it returns [False] (the [ValueError]
    of [range] is caught), and with [pages_per_split < 0] it returns [True]
    having written no file. Without a loaded reader it returns [False] and
    writes nothing. *)
Theorem split_pdf_nonpositive (add_page_fails : nat -> bool)
        (write_fails : nat -> path -> bool) (s : PDFSplitter) (p : Z) (outs : list path) :
  0 <= total_pages s ->
  (reader s = None -> split_pdf add_page_fails write_fails s p outs = ([], false)) /\
  (reader s <> None -> p = 0 -> split_pdf add_page_fails write_fails s p outs = ([], false)) /\
  (reader s <> None -> p < 0 -> split_pdf add_page_fails write_fails s p outs = ([], true)).
Proof.
  intros HT. unfold split_pdf. repeat split.
  - intros ->. reflexivity.
  - intros Hr ->. destruct (reader s); [reflexivity | contradiction].
  - intros Hr Hp. destruct (reader s); [| contradiction].
    unfold _get_page_ranges, py_range, py_range_len.
    replace (p =? 0) with false by lia. replace (0 <? p) with false by lia.
    replace (Z.to_nat (Z.max 0 ((0 - total_pages s - p - 1) / - p))) with 0%nat.
    + reflexivity.
    + assert ((0 - total_pages s - p - 1) / - p < 1).
      { apply Z.div_lt_upper_bound; lia. }
      lia.
Qed.

(** Witness of [X5]: the 9-page document. *)
Lemma split_pdf_nonpositive_witness :
  0 <= total_pages doc9 /\
  ((reader doc9 <> None -> (-2) < 0 ->
    split_pdf (fun _ => false) (fun _ _ => false) doc9 (-2) parts3 = ([], true))).
Proof.
  split; [simpl; lia |].
  apply (split_pdf_nonpositive (fun _ => false) (fun _ _ => false) doc9 (-2) parts3).
  simpl; lia.
Defined.

(** ** The run of [main] *)

Lemma split_loop_written_in (add_page_fails : nat -> bool) (write_fails : nat -> path -> bool)
      (pgs : list Z) (outs : list path) (rs : list (Z * Z)) :
  forall i w, In w (fst (split_loop add_page_fails write_fails pgs outs i rs)) ->
  In (fst w) outs.
Proof.
  induction rs as [| [a b] rs IH]; intros i w H; cbn [split_loop] in H; [contradiction |].
  destruct (extract_pages pgs a b); [| contradiction].
  destruct (add_page_fails i); [contradiction |].
  destruct (nth_error outs i) as [o |] eqn:Eo; [| contradiction].
  destruct (write_fails i o); [contradiction |].
  destruct (split_loop add_page_fails write_fails pgs outs (S i) rs) as [w' ok] eqn:Es.
  destruct H as [<- | H].
  - apply nth_error_In with i. exact Eo.
  - apply (IH (S i)). rewrite Es. exact H.
Qed.

Lemma split_pdf_written_in (add_page_fails : nat -> bool) (write_fails : nat -> path -> bool)
      (s : PDFSplitter) (p : Z) (outs : list path) (w : path * list Z) :
  In w (fst (split_pdf add_page_fails write_fails s p outs)) -> In (fst w) outs.
Proof.
  unfold split_pdf. destruct (reader s); [| contradiction].
  destruct (_get_page_ranges s p); [| contradiction]. apply split_loop_written_in.
Qed.

Lemma resolved_from_free (exists_ : path -> bool) (c : nat) (original_path file_path r : path) :
  resolved_from exists_ c original_path file_path r -> exists_ r = false.
Proof.
  intros [[H ->] | [_ (k & _ & _ & H & _)]]; exact H.
Qed.

Lemma handle_conflicts_free (exists_ : path -> bool) (fuel : nat) (outs rs : list path) :
  handle_filename_conflicts exists_ fuel outs = Some rs ->
  forall r, In r rs -> exists_ r = false.
Proof.
  intros H. apply handle_conflicts_forall2 in H. induction H as [| p q ps qs Hpq _ IH];
    intros r Hr; [contradiction |].
  destruct Hr as [<- | Hr]; [exact (resolved_from_free _ _ _ _ _ Hpq) | exact (IH r Hr)].
Qed.

Lemma filter_all_false {A : Type} (f : A -> bool) (l : list A) :
  (forall x, In x l -> f x = false) -> filter f l = [].
Proof.
  induction l as [| x l IH]; intros H; simpl; [reflexivity |].
  rewrite (H x (or_introl eq_refl)). apply IH. intros y Hy. apply H. right. exact Hy.
Qed.

Lemma validate_true (s : PDFSplitter) (p : Z) (msg : string) :
  validate_split_parameters s p = (true, msg) -> 0 < p < total_pages s.
Proof.
  unfold validate_split_parameters.
  destruct (Z.leb_spec p 0); [discriminate |].
  destruct (Z.leb_spec (total_pages s) p); [discriminate | lia].
Qed.

(** With one path per generated name, a successful split writes every path. *)
Lemma split_after_names (add_page_fails : nat -> bool) (write_fails : nat -> path -> bool)
      (fm : FileManager) (s : PDFSplitter) (r : PdfReader) (p : Z)
      (outs outs' : list path) :
  reader s = Some r -> total_pages s = Z.of_nat (List.length (pages r)) -> 0 < p ->
  generate_output_filenames fm (total_pages s) p = Some outs ->
  List.length outs' = List.length outs ->
  snd (split_pdf add_page_fails write_fails s p outs') = true ->
  map fst (fst (split_pdf add_page_fails write_fails s p outs')) = outs' /\
  List.concat (map snd (fst (split_pdf add_page_fails write_fails s p outs'))) = pages r.
Proof.
  intros Hr HT Hp Hg Hl Hok. unfold generate_output_filenames in Hg.
  replace (p =? 0) with false in Hg by lia. injection Hg as <-.
  rewrite length_map, length_seq in Hl.
  unfold split_pdf in Hok |- *. rewrite Hr in Hok |- *.
  rewrite get_page_ranges_closed in Hok |- * by lia. rewrite HT in Hok, Hl |- *.
  pose proof (ceil_div_nonneg (Z.of_nat (List.length (pages r))) p Hp ltac:(lia)).
  destruct (split_loop_success add_page_fails write_fails (pages r) outs'
              (map (range_at (Z.of_nat (List.length (pages r))) p)
                   (seq 0 (Z.to_nat ((Z.of_nat (List.length (pages r)) + p - 1) / p))))
              0) as (H1 & H2 & _); [| exact Hok |].
  { apply Forall_forall. intros ab Hab. apply in_map_iff in Hab as (k & <- & Hk).
    apply in_seq in Hk.
    pose proof (range_at_valid (Z.of_nat (List.length (pages r))) p k Hp ltac:(lia)
                  ltac:(lia)). lia. }
  split.
  - rewrite H2, length_map, length_seq, <- Hl. apply firstn_all.
  - rewrite H1, concat_slices by lia.
    pose proof (ceil_div_bounds (Z.of_nat (List.length (pages r))) p Hp) as [B1 B2].
    apply firstn_all2. lia.
Qed.

Section MainProofs.

Variable add_page_fails : nat -> bool.
Variable write_fails : nat -> path -> bool.
Variable existing : list path.
Variable mkdir_ok : bool.
Variable overwrite_response continue_response : string.
Variable available_printers : list string.
Variable print_outcome : option string -> list (string * string) -> nat -> path -> bool * string.

Local Abbreviation run := (main_run add_page_fails write_fails existing mkdir_ok
                         overwrite_response continue_response available_printers print_outcome).

(** [X6] [main] never writes over a file that was present when it started,
    whatever [--force] and the answer to "Overwrite existing files?": the
    part files it writes are all at paths that did not exist. (A "yes"
    does not overwrite; the names are renamed as usual.) *)
Theorem main_never_overwrites (args : Args) (s0 : PDFSplitter) (read : option PdfReader)
        (fm : FileManager) (w : path * list Z) :
  In w (files_written (run args s0 read fm)) -> snapshot_exists existing (fst w) = false.
Proof.
  unfold main_run. destruct (load_pdf s0 read) as [s loaded].
  destruct loaded; cbn [negb]; [| simpl; tauto].
  destruct (validate_split_parameters s (arg_pages args)) as [v msg].
  destruct v; cbn [negb]; [| simpl; tauto].
  destruct (arg_preview args); [simpl; tauto |].
  destruct mkdir_ok; cbn [negb]; [| simpl; tauto].
  destruct (generate_output_filenames fm (total_pages s) (arg_pages args)) as [outs |];
    [| simpl; tauto].
  destruct (negb (arg_force args) && _ && _); [simpl; tauto |].
  destruct (handle_filename_conflicts (snapshot_exists existing) (List.length existing) outs)
    as [outs' |] eqn:Eh; [| simpl; tauto].
  destruct (split_pdf add_page_fails write_fails s (arg_pages args) outs')
    as [written success] eqn:Es.
  assert (Hw : In w written -> snapshot_exists existing (fst w) = false).
  { intros Hin. apply (handle_conflicts_free _ _ _ _ Eh).
    apply (split_pdf_written_in add_page_fails write_fails s (arg_pages args) outs').
    rewrite Es. exact Hin. }
  destruct success; cbn [negb]; [| exact Hw].
  destruct (arg_print args); cbn [negb]; [| exact Hw].
  destruct (print_multiple_files _ outs') as [printed res].
  destruct (_ && negb (answer_yes continue_response)); exact Hw.
Qed.

(** [X7] For a readable document of [n] pages and [0 < pages < n], outside
    preview mode, with the output directory created, no conflict
    cancellation ([--force], a "yes", or no generated name present) and no
    exception while adding pages or writing, [main] exits with code 0 having
    written [ceil(n / pages)] part files at distinct paths, each named after
    its part in the output directory, whose pages concatenated are the
    document's. *)
Theorem main_splits_document (args : Args) (s0 : PDFSplitter) (r : PdfReader)
        (fm : FileManager) :
  0 < arg_pages args < Z.of_nat (List.length (pages r)) ->
  arg_preview args = false -> mkdir_ok = true ->
  (arg_force args = true \/ answer_yes overwrite_response = true \/
   forall i, snapshot_exists existing (part_path fm i) = false) ->
  (forall j, add_page_fails j = false) -> (forall j o, write_fails j o = false) ->
  exit_code (run args s0 (Some r) fm) = 0 /\
  List.concat (map snd (files_written (run args s0 (Some r) fm))) = pages r /\
  NoDup (map fst (files_written (run args s0 (Some r) fm))) /\
  Forall (fun w => exists i, part_shaped fm i (fst w)) (files_written (run args s0 (Some r) fm)) /\
  List.length (files_written (run args s0 (Some r) fm))
    = Z.to_nat ((Z.of_nat (List.length (pages r)) + arg_pages args - 1) / arg_pages args).
Proof.
  intros Hp Hprev Hmk Hconf Ha Hw.
  set (T := Z.of_nat (List.length (pages r))) in *.
  set (p := arg_pages args) in *.
  set (N := Z.to_nat ((T + p - 1) / p)).
  set (s := {| input_file := input_file s0; reader := Some r; total_pages := T |}).
  assert (Hload : load_pdf s0 (Some r) = (s, true)).
  { unfold load_pdf. f_equal. apply negb_true_iff, Z.eqb_neq. lia. }
  assert (Hval : validate_split_parameters s p = (true, ""%string)).
  { unfold validate_split_parameters. cbn [total_pages s].
    replace (p <=? 0) with false by lia. replace (T <=? p) with false by lia. reflexivity. }
  assert (Hgen : generate_output_filenames fm (total_pages s) p
                 = Some (map (part_path fm) (seq 0 N))).
  { unfold generate_output_filenames. replace (p =? 0) with false by lia. reflexivity. }
  assert (Hc : negb (arg_force args)
               && negb (Nat.eqb (List.length (filter (snapshot_exists existing)
                                                    (map (part_path fm) (seq 0 N)))) 0)
               && negb (answer_yes overwrite_response) = false).
  { destruct Hconf as [H | [H | H]].
    - rewrite H. reflexivity.
    - rewrite H. apply andb_false_r.
    - rewrite filter_all_false; [simpl; rewrite andb_false_r; reflexivity |].
      intros x Hx. apply in_map_iff in Hx as (i & <- & _). apply H. }
  destruct (handle_conflicts_parts_terminate existing fm N 0) as [rs Hrs].
  pose proof (handle_conflicts_parts _ _ _ _ _ _ Hrs) as [ND Fs].
  assert (Hlen : List.length rs = N).
  { apply handle_conflicts_forall2, Forall2_length in Hrs.
    rewrite length_map, length_seq in Hrs. symmetry. exact Hrs. }
  destruct (split_pdf add_page_fails write_fails s p rs) as [written success] eqn:Es.
  assert (Hok : success = true).
  { assert (Hr : _get_page_ranges s p = Some (map (range_at T p) (seq 0 N))).
    { rewrite get_page_ranges_closed by (simpl; lia). reflexivity. }
    pose proof (page_ranges_extractable s r p _ eq_refl ltac:(lia) Hr) as Hv.
    unfold split_pdf in Es. cbn [reader s] in Es. rewrite Hr in Es.
    destruct (split_loop_first_failure add_page_fails write_fails (pages r) rs
                (map (range_at T p) (seq 0 N)) Hv 0 N) as [_ H2].
    - rewrite length_map, length_seq. lia.
    - intros j Hj. unfold part_ok. rewrite Ha. simpl.
      destruct (nth_error rs j) as [o |] eqn:Eo.
      + rewrite Hw. reflexivity.
      + apply nth_error_None in Eo. lia.
    - left. rewrite length_map, length_seq. reflexivity.
    - rewrite Es in H2. simpl in H2. rewrite H2, length_map, length_seq. apply Nat.eqb_refl. }
  subst success.
  destruct (split_after_names add_page_fails write_fails fm s r p
              (map (part_path fm) (seq 0 N)) rs eq_refl eq_refl ltac:(lia) Hgen
              ltac:(rewrite length_map, length_seq; exact Hlen) ltac:(rewrite Es; reflexivity))
    as [W1 W2].
  rewrite Es in W1, W2. simpl in W1, W2.
  assert (Hfacts : 0 = 0 /\ List.concat (map snd written) = pages r /\
                   NoDup (map fst written) /\
                   Forall (fun w => exists i, part_shaped fm i (fst w)) written /\
                   List.length written = N).
  { rewrite W1. repeat split; [exact W2 | exact ND | |].
    - apply Forall_forall. intros w Hw'. apply (in_map fst) in Hw'. rewrite W1 in Hw'.
      rewrite Forall_forall in Fs. destruct (Fs _ Hw') as (i & _ & Hi). exists i. exact Hi.
    - rewrite <- Hlen, <- W1, length_map. reflexivity. }
  unfold main_run. rewrite Hload. cbn [negb]. fold p. rewrite Hval. cbn [negb].
  rewrite Hprev, Hmk. cbn [negb]. rewrite Hgen. rewrite Hc.
  rewrite Hrs. rewrite Es. cbn [negb].
  destruct (arg_print args); cbn [negb]; [| exact Hfacts].
  destruct (print_multiple_files _ rs) as [printed res].
  destruct (_ && negb (answer_yes continue_response)); exact Hfacts.
Qed.


(** [X9] When [main] sends files to the printer, it sends exactly the part
    files it wrote, each once, in the order written. *)
Theorem main_prints_what_it_wrote (args : Args) (s0 : PDFSplitter) (read : option PdfReader)
        (fm : FileManager) :
  files_printed (run args s0 read fm) <> [] ->
  files_printed (run args s0 read fm) = map fst (files_written (run args s0 read fm)).
Proof.
  unfold main_run. destruct read as [r |]; [| simpl; congruence].
  unfold load_pdf. cbv beta iota zeta.
  set (s := {| input_file := input_file s0; reader := Some r;
               total_pages := Z.of_nat (List.length (pages r)) |}).
  destruct (Z.of_nat (List.length (pages r)) =? 0); cbn [negb]; [simpl; congruence |].
  destruct (validate_split_parameters s (arg_pages args)) as [v msg] eqn:Ev.
  destruct v; cbn [negb]; [| simpl; congruence].
  apply validate_true in Ev.
  destruct (arg_preview args); [simpl; congruence |].
  destruct mkdir_ok; cbn [negb]; [| simpl; congruence].
  destruct (generate_output_filenames fm (total_pages s) (arg_pages args)) as [outs |] eqn:Eg;
    [| simpl; congruence].
  destruct (negb (arg_force args) && _ && _); [simpl; congruence |].
  destruct (handle_filename_conflicts (snapshot_exists existing) (List.length existing) outs)
    as [outs' |] eqn:Eh; [| simpl; congruence].
  destruct (split_pdf add_page_fails write_fails s (arg_pages args) outs')
    as [written success] eqn:Es.
  destruct success; cbn [negb]; [| simpl; congruence].
  destruct (arg_print args); cbn [negb]; [| simpl; congruence].
  destruct (print_multiple_files (print_outcome (arg_printer args)
              (parse_print_options (arg_print_options args))) outs') as [printed res] eqn:Ep.
  destruct (_ && negb (answer_yes continue_response)); [simpl; congruence |].
  intros _. cbn [files_printed files_written].
  assert (Hp : printed = outs').
  { apply (f_equal fst) in Ep. unfold print_multiple_files in Ep.
    rewrite (proj1 (print_loop_spec _ outs' 0 [])) in Ep. simpl in Ep. congruence. }
  apply handle_conflicts_forall2, Forall2_length in Eh.
  destruct (split_after_names add_page_fails write_fails fm s r (arg_pages args) outs outs'
              eq_refl eq_refl ltac:(lia) Eg ltac:(lia) ltac:(rewrite Es; reflexivity))
    as [W1 _].
  rewrite Es in W1. simpl in W1. rewrite Hp, W1. reflexivity.
Qed.

End MainProofs.

(** Witness of [X6]: the first part is renamed, not overwritten. *)
Lemma main_never_overwrites_witness :
  In (path_div "out" "doc_part_001_1.pdf", [1; 2; 3]) (files_written run_example) /\
  snapshot_exists existing1 (path_div "out" "doc_part_001_1.pdf") = false.
Proof.
  split; [vm_compute; left; reflexivity |].
  apply (main_never_overwrites (fun _ => false) (fun _ _ => false) existing1 true "" "" []
           print_ok args_split3 doc9 (Some reader9) fm_out
           (path_div "out" "doc_part_001_1.pdf", [1; 2; 3])).
  vm_compute. left. reflexivity.
Defined.

(** Witness of [X7]: the example run. *)
Lemma main_splits_document_witness :
  exit_code run_example = 0 /\
  List.concat (map snd (files_written run_example)) = pages reader9 /\
  NoDup (map fst (files_written run_example)) /\
  Forall (fun w => exists i, part_shaped fm_out i (fst w)) (files_written run_example) /\
  List.length (files_written run_example)
    = Z.to_nat ((Z.of_nat (List.length (pages reader9)) + arg_pages args_split3 - 1)
                / arg_pages args_split3).
Proof.
  apply (main_splits_document (fun _ => false) (fun _ _ => false) existing1 true "" "" []
           print_ok args_split3 doc9 reader9 fm_out).
  - simpl. lia.
  - reflexivity.
  - reflexivity.
  - left. reflexivity.
  - intros. reflexivity.
  - intros. reflexivity.
Defined.

(** Witness of [X9]: the example run prints its three parts. *)
Lemma main_prints_what_it_wrote_witness :
  files_printed run_example <> [] /\
  files_printed run_example = map fst (files_written run_example).
Proof.
  split; [vm_compute; discriminate |].
  apply (main_prints_what_it_wrote (fun _ => false) (fun _ _ => false) existing1 true "" "" []
           print_ok args_split3 doc9 (Some reader9) fm_out).
  vm_compute. discriminate.
Defined.

(** ** Print options *)

Lemma split_pred_app (f : ascii -> bool) (x rest : string) (c : ascii) :
  f c = true -> (forall ch, In ch (list_ascii_of_string x) -> f ch = false) ->
  py_split_pred f (x ++ String c rest) = x :: py_split_pred f rest.
Proof.
  intros Hc. induction x as [| a x IH]; intros Hx; simpl.
  - rewrite Hc. reflexivity.
  - rewrite IH by (intros ch Hch; apply Hx; right; exact Hch).
    rewrite (Hx a (or_introl eq_refl)). reflexivity.
Qed.

Lemma split_pred_none (f : ascii -> bool) (x : string) :
  (forall ch, In ch (list_ascii_of_string x) -> f ch = false) -> py_split_pred f x = [x].
Proof.
  induction x as [| a x IH]; intros Hx; simpl; [reflexivity |].
  rewrite IH by (intros ch Hch; apply Hx; right; exact Hch).
  rewrite (Hx a (or_introl eq_refl)). reflexivity.
Qed.

Lemma no_char_eqb (c : ascii) (s : string) :
  ~ In c (list_ascii_of_string s) ->
  forall ch, In ch (list_ascii_of_string s) -> Ascii.eqb ch c = false.
Proof. intros H ch Hch. apply Ascii.eqb_neq. intros ->. contradiction. Qed.

Lemma split_join (c : ascii) (parts : list string) :
  parts <> [] -> Forall (fun x => ~ In c (list_ascii_of_string x)) parts ->
  py_split c (py_join (String c EmptyString) parts) = parts.
Proof.
  induction parts as [| x parts IH]; intros Hne Hf; [contradiction |].
  inversion Hf as [| ? ? Hx Hf']; subst.
  destruct parts as [| y parts].
  - cbn [py_join]. apply split_pred_none, no_char_eqb, Hx.
  - change (py_join (String c EmptyString) (x :: y :: parts))
      with ((x ++ String c (py_join (String c EmptyString) (y :: parts)))%string).
    unfold py_split. rewrite split_pred_app.
    + f_equal. apply IH; [discriminate | exact Hf'].
    + apply Ascii.eqb_refl.
    + apply no_char_eqb, Hx.
Qed.

Lemma dict_set_new {V : Type} (d : list (string * V)) (k : string) (v : V) :
  ~ In k (map fst d) -> dict_set d k v = d ++ [(k, v)].
Proof.
  intros H. unfold dict_set.
  replace (existsb (fun kv => String.eqb (fst kv) k) d) with false; [reflexivity |].
  symmetry. apply not_true_iff_false. intros E. apply existsb_exists in E as (kv & Hkv & E).
  apply String.eqb_eq in E. apply H. rewrite <- E. apply in_map. exact Hkv.
Qed.

Lemma parse_loop_items (kvs d : list (string * string)) :
  Forall (fun kv => ~ In "="%char (list_ascii_of_string (fst kv)) /\
                    ~ In "="%char (list_ascii_of_string (snd kv)) /\
                    py_strip (fst kv) = fst kv /\ py_strip (snd kv) = snd kv) kvs ->
  NoDup (map fst d ++ map fst kvs) ->
  parse_options_loop (map (fun kv => (fst kv ++ "=" ++ snd kv)%string) kvs) d
  = Some (d ++ kvs).
Proof.
  revert d. induction kvs as [| [k v] kvs IH]; intros d Hf Hnd.
  - cbn [map parse_options_loop]. rewrite app_nil_r. reflexivity.
  - inversion Hf as [| ? ? (Hk & Hv & Sk & Sv) Hf']; subst. cbn [fst snd] in Hk, Hv, Sk, Sv.
    cbn [map parse_options_loop fst snd].
    change ((k ++ "=" ++ v)%string) with ((k ++ String "=" v)%string).
    unfold py_split at 1.
    rewrite (split_pred_app (fun ch => Ascii.eqb ch "=") k v "=" (Ascii.eqb_refl _)
               (no_char_eqb _ _ Hk)),
      (split_pred_none (fun ch => Ascii.eqb ch "=") v (no_char_eqb _ _ Hv)).
    cbv iota.
    rewrite Sk, Sv. cbn [map fst] in Hnd.
    rewrite dict_set_new by (apply NoDup_remove_2 in Hnd; rewrite in_app_iff in Hnd; tauto).
    rewrite IH; [rewrite <- app_assoc; reflexivity | exact Hf' |].
    rewrite map_app, <- app_assoc. exact Hnd.
Qed.

(** [X10] The [--print-options] parser of [main] reads back any option
    list written as [k1=v1,k2=v2,...] whose keys are distinct and whose keys
    and values contain no [,] or [=] and have no surrounding whitespace: it
    gives the same options, in the same order. *)
Theorem print_options_round_trip (kvs : list (string * string)) :
  Forall (fun kv => ~ In ","%char (list_ascii_of_string (fst kv)) /\
                    ~ In ","%char (list_ascii_of_string (snd kv)) /\
                    ~ In "="%char (list_ascii_of_string (fst kv)) /\
                    ~ In "="%char (list_ascii_of_string (snd kv)) /\
                    py_strip (fst kv) = fst kv /\ py_strip (snd kv) = snd kv) kvs ->
  NoDup (map fst kvs) ->
  parse_print_options (Some (render_options kvs)) = kvs.
Proof.
  intros Hf Hnd. destruct kvs as [| kv0 kvs0]; [reflexivity |].
  set (kvs := kv0 :: kvs0) in *.
  assert (Hs : py_split "," (render_options kvs)
               = map (fun kv => (fst kv ++ "=" ++ snd kv)%string) kvs).
  { apply split_join; [discriminate |]. apply Forall_map.
    eapply Forall_impl; [| exact Hf]. intros [k v] (H1 & H2 & _). simpl in *.
    rewrite !chars_app, !in_app_iff. simpl. intros [H | [H | H]]; try tauto.
    discriminate H. }
  assert (Hl : parse_options_loop (py_split "," (render_options kvs)) [] = Some kvs).
  { rewrite Hs, parse_loop_items; [reflexivity | |].
    - eapply Forall_impl; [| exact Hf]. intros a Ha. cbv beta in Ha. tauto.
    - exact Hnd. }
  unfold parse_print_options, py_truthy_str.
  destruct (String.eqb (render_options kvs) "") eqn:E.
  - apply String.eqb_eq in E. rewrite E in Hs. exfalso.
    destruct kv0 as [k0 v0]. simpl in Hs. injection Hs as Hs _.
    apply (f_equal String.length) in Hs. rewrite !str_length_app in Hs. simpl in Hs. lia.
  - simpl. rewrite Hl. reflexivity.
Qed.

(** Witness of [X10]: two CUPS options. *)
Lemma print_options_round_trip_witness :
  parse_print_options (Some (render_options [("sides", "two-sided-long-edge"); ("copies", "2")]%string))
  = [("sides", "two-sided-long-edge"); ("copies", "2")]%string.
Proof.
  apply print_options_round_trip.
  - repeat constructor; simpl; intuition discriminate.
  - repeat constructor; simpl; intuition discriminate.
Defined.

Lemma parse_loop_bad (opts : list string) (item : string) :
  In item opts -> List.length (py_split "=" item) <> 2%nat ->
  forall d, parse_options_loop opts d = None.
Proof.
  induction opts as [| o opts IH]; intros Hin Hlen d; [contradiction |].
  cbn [parse_options_loop]. destruct Hin as [-> | Hin].
  - destruct (py_split "=" item) as [| k [| v [| x l]]]; simpl in Hlen; try lia; reflexivity.
  - destruct (py_split "=" o) as [| k [| v [| x l]]]; try reflexivity. apply IH; assumption.
Qed.

(** [X11] One malformed item in [--print-options] (an item with no [=] or
    with more than one, an empty item from a trailing comma, ...) makes
    [main] drop all the options: the [ValueError] resets the dict to [{}],
    discarding the items parsed before it. *)
Theorem print_options_malformed_item (s item : string) :
  In item (py_split "," s) -> List.length (py_split "=" item) <> 2%nat ->
  parse_print_options (Some s) = [].
Proof.
  intros Hin Hlen. unfold parse_print_options.
  destruct (py_truthy_str (Some s)); [| reflexivity].
  rewrite (parse_loop_bad _ item Hin Hlen). reflexivity.
Qed.

(** Witness of [X11]: [copies=2,sides]. *)
Lemma print_options_malformed_item_witness :
  In "sides"%string (py_split "," "copies=2,sides") /\
  List.length (py_split "=" "sides") <> 2%nat /\
  parse_print_options (Some "copies=2,sides"%string) = [].
Proof.
  split; [vm_compute; right; left; reflexivity |]. split; [vm_compute; discriminate |].
  apply (print_options_malformed_item "copies=2,sides" "sides").
  - vm_compute. right. left. reflexivity.
  - vm_compute. discriminate.
Defined.

(** ** Printing one file *)

Lemma lpr_command_ends (file_path : path) (printer_name : option string)
      (print_options : list (string * string)) :
  hd EmptyString (lpr_command file_path printer_name print_options) = "lpr"%string /\
  last (lpr_command file_path printer_name print_options) EmptyString = path_str file_path.
Proof.
  unfold lpr_command. split; [reflexivity |]. rewrite !app_assoc. apply last_last.
Qed.

(** [X12] [print_file] runs a command, or reports success, only for a file
    that exists and whose suffix is [.pdf] in any letter case; success also
    needs the system to be Windows, Darwin or Linux. A missing file gives
    [(False, "File not found: <path>")]. *)
Theorem print_file_guards (system : string) (file_exists : path -> bool)
        (run : list string -> run_result) (win32_available : bool)
        (win32_error : option string) (fp : path) (pn : option string)
        (po : list (string * string)) :
  (forall cmd, In cmd (snd (print_file system file_exists run win32_available win32_error fp pn po)) ->
     file_exists fp = true /\ py_lower (path_suffix fp) = ".pdf"%string) /\
  (fst (fst (print_file system file_exists run win32_available win32_error fp pn po)) = true ->
     file_exists fp = true /\ py_lower (path_suffix fp) = ".pdf"%string /\
     In system ["Windows"; "Darwin"; "Linux"]%string) /\
  (file_exists fp = false ->
     fst (print_file system file_exists run win32_available win32_error fp pn po)
     = (false, ("File not found: " ++ path_str fp)%string)).
Proof.
  unfold print_file. destruct (file_exists fp) eqn:Ef; cbn [negb];
    [| split; [simpl; tauto | split; [simpl; discriminate | reflexivity]]].
  destruct (String.eqb (py_lower (path_suffix fp)) ".pdf") eqn:Ep; cbn [negb];
    [| split; [simpl; tauto | split; [simpl; discriminate | discriminate]]].
  apply String.eqb_eq in Ep.
  assert (Hsys : fst (fst (let (out, cmds) :=
      if String.eqb system "Windows" then _print_windows run win32_available win32_error fp pn po
      else if String.eqb system "Darwin" then _print_mac run fp pn po
      else if String.eqb system "Linux" then _print_linux run fp pn po
      else (inl (false, ("Printing not supported on " ++ system)%string), []) in
      (match out with
       | inl res => res
       | inr e => (false, ("Print error: " ++ e)%string)
       end, cmds))) = true -> In system ["Windows"; "Darwin"; "Linux"]%string).
  { destruct (String.eqb system "Windows") eqn:E1;
      [apply String.eqb_eq in E1; subst; simpl; tauto |].
    destruct (String.eqb system "Darwin") eqn:E2;
      [apply String.eqb_eq in E2; subst; simpl; tauto |].
    destruct (String.eqb system "Linux") eqn:E3;
      [apply String.eqb_eq in E3; subst; simpl; tauto |].
    simpl. discriminate. }
  split; [intros; split; reflexivity || exact Ep |].
  split; [intros H; split; [reflexivity | split; [exact Ep | exact (Hsys H)]] | discriminate].
Qed.

(** [X13] On Linux and macOS, for an existing PDF file, [print_file] runs
    exactly one command, [lpr_command]: it starts with [lpr] and ends with
    the file's path. The result is a success exactly when that command
    completes, and the message then names the printer, or [default]. *)
Theorem print_file_unix (system : string) (file_exists : path -> bool)
        (run : list string -> run_result) (win32_available : bool)
        (win32_error : option string) (fp : path) (pn : option string)
        (po : list (string * string)) :
  (system = "Linux"%string \/ system = "Darwin"%string) -> file_exists fp = true ->
  py_lower (path_suffix fp) = ".pdf"%string ->
  snd (print_file system file_exists run win32_available win32_error fp pn po)
    = [lpr_command fp pn po] /\
  (fst (fst (print_file system file_exists run win32_available win32_error fp pn po)) = true
     <-> exists out, run (lpr_command fp pn po) = RunOk out) /\
  (fst (fst (print_file system file_exists run win32_available win32_error fp pn po)) = true ->
     snd (fst (print_file system file_exists run win32_available win32_error fp pn po))
     = ("Sent to printer: " ++ printer_or_default pn)%string) /\
  hd EmptyString (lpr_command fp pn po) = "lpr"%string /\
  last (lpr_command fp pn po) EmptyString = path_str fp.
Proof.
  intros Hs Hf Hp. destruct (lpr_command_ends fp pn po) as [Hhd Hlast].
  unfold print_file. rewrite Hf. cbn [negb]. rewrite (proj2 (String.eqb_eq _ _) Hp).
  cbn [negb].
  destruct Hs as [-> | ->]; cbn [String.eqb Ascii.eqb Bool.eqb andb];
    unfold _print_linux, _print_mac, _print_unix; cbv zeta;
    set (cmd := lpr_command fp pn po) in *;
    (destruct (run cmd) eqn:Er; cbn [fst snd];
     (split; [reflexivity |]);
     (split; [split; [intros H; first [eexists; reflexivity | discriminate H] |
                      intros [o Ho]; first [reflexivity | discriminate Ho]] |]);
     (split; [intros H; first [reflexivity | discriminate H] |]);
     split; assumption).
Qed.

(** Witness of [X13]: a [.PDF] file printed on Linux. *)
Lemma print_file_unix_witness :
  let fp := path_div "out" "doc_part_001.PDF" in
  snd (print_file "Linux" (fun _ => true) (fun _ => RunOk "") false None fp None [])
    = [lpr_command fp None []] /\
  (fst (fst (print_file "Linux" (fun _ => true) (fun _ => RunOk "") false None fp None [])) = true
     <-> exists out, (fun _ => RunOk "") (lpr_command fp None []) = RunOk out) /\
  (fst (fst (print_file "Linux" (fun _ => true) (fun _ => RunOk "") false None fp None [])) = true ->
     snd (fst (print_file "Linux" (fun _ => true) (fun _ => RunOk "") false None fp None []))
     = ("Sent to printer: " ++ printer_or_default None)%string) /\
  hd EmptyString (lpr_command fp None []) = "lpr"%string /\
  last (lpr_command fp None []) EmptyString = path_str fp.
Proof.
  intros fp. apply (print_file_unix "Linux" (fun _ => true) (fun _ => RunOk "") false None fp None []).
  - left. reflexivity.
  - reflexivity.
  - vm_compute. reflexivity.
Defined.

(** ** Listing printers *)

Lemma split_pred_pieces (f : ascii -> bool) (s w : string) :
  In w (py_split_pred f s) -> forall c, In c (list_ascii_of_string w) -> f c = false.
Proof.
  revert w. induction s as [| a s IH]; intros w Hw c Hc; simpl in Hw.
  - destruct Hw as [<- | []]. destruct Hc.
  - destruct (f a) eqn:Ea.
    + destruct Hw as [<- | Hw]; [destruct Hc | exact (IH w Hw c Hc)].
    + destruct (py_split_pred f s) as [| p ps] eqn:Es.
      * destruct Hw as [<- | []]. destruct Hc as [<- | []]. exact Ea.
      * destruct Hw as [<- | Hw].
        -- destruct Hc as [<- | Hc]; [exact Ea | exact (IH p (or_introl eq_refl) c Hc)].
        -- exact (IH w (or_intror Hw) c Hc).
Qed.

Lemma split_ws_pieces (s w : string) :
  In w (py_split_ws s) ->
  w <> EmptyString /\ forall c, In c (list_ascii_of_string w) -> py_isspace c = false.
Proof.
  unfold py_split_ws. rewrite filter_In. intros [Hw Hne]. split.
  - intros ->. discriminate Hne.
  - exact (split_pred_pieces py_isspace s w Hw).
Qed.

Lemma lpstat_good (lines : list string) :
  Forall (fun l => (2 <= List.length (py_split_ws l))%nat)
         (filter (fun l => String.prefix "printer " l) lines) ->
  lpstat_printers lines
  = Some (map (fun l => nth 1 (py_split_ws l) EmptyString)
              (filter (fun l => String.prefix "printer " l) lines)).
Proof.
  induction lines as [| l rest IH]; intros H; [reflexivity |].
  cbn [lpstat_printers filter] in *. destruct (String.prefix "printer " l) eqn:Ep.
  - pose proof (Forall_inv H) as Hl. pose proof (Forall_inv_tail H) as Hr.
    cbv beta in Hl. destruct (py_split_ws l) as [| w0 [| w1 ws]] eqn:Ew;
      cbn [List.length] in Hl; [lia | lia |].
    rewrite (IH Hr). cbn [map]. rewrite Ew. reflexivity.
  - exact (IH H).
Qed.

Lemma lpstat_bad (lines : list string) :
  Exists (fun l => (List.length (py_split_ws l) < 2)%nat)
         (filter (fun l => String.prefix "printer " l) lines) ->
  lpstat_printers lines = None.
Proof.
  induction lines as [| l rest IH]; intros H; [inversion H |].
  cbn [lpstat_printers filter] in *. destruct (String.prefix "printer " l) eqn:Ep.
  - apply Exists_cons in H. destruct H as [Hl | Hr]; cbv beta in *.
    + destruct (py_split_ws l) as [| w0 [| w1 ws]]; cbn [List.length] in Hl;
        [reflexivity | reflexivity | lia].
    + destruct (py_split_ws l) as [| w0 [| w1 ws]]; [reflexivity | reflexivity |].
      rewrite (IH Hr). reflexivity.
  - exact (IH H).
Qed.

Lemma lpstat_names (lines : list string) (ps : list string) :
  lpstat_printers lines = Some ps ->
  forall n, In n ps ->
  n <> EmptyString /\ forall c, In c (list_ascii_of_string n) -> py_isspace c = false.
Proof.
  revert ps. induction lines as [| l rest IH]; intros ps H n Hn; cbn [lpstat_printers] in H.
  - injection H as <-. destruct Hn.
  - destruct (String.prefix "printer " l); [| exact (IH ps H n Hn)].
    destruct (py_split_ws l) as [| w0 [| w1 ws]] eqn:Ew; try discriminate H.
    destruct (lpstat_printers rest) as [ps' |] eqn:Er; [| discriminate H].
    injection H as <-. destruct Hn as [<- | Hn].
    + apply (split_ws_pieces l). rewrite Ew. right. left. reflexivity.
    + exact (IH ps' eq_refl n Hn).
Qed.

Lemma list_printers_unix_eq (system : string) (win32 : option (list string))
      (powershell lpstat_p : run_result) :
  (system = "Linux"%string \/ system = "Darwin"%string) ->
  list_printers system win32 powershell lpstat_p
  = match _list_unix_printers lpstat_p with inl ps => ps | inr _ => [] end.
Proof. intros [-> | ->]; reflexivity. Qed.

(** [X14] On Linux and macOS, [list_printers] gives the second word of each
    [lpstat -p] line starting with [printer ], in order. One such line with
    fewer than two words makes the whole list empty. Every name it returns
    is non-empty and contains no whitespace. *)
Theorem list_printers_unix (system : string) (win32 : option (list string))
        (powershell : run_result) (out : string) :
  (system = "Linux"%string \/ system = "Darwin"%string) ->
  let plines := filter (fun l => String.prefix "printer " l) (py_split "010" out) in
  (Forall (fun l => (2 <= List.length (py_split_ws l))%nat) plines ->
     list_printers system win32 powershell (RunOk out)
     = map (fun l => nth 1 (py_split_ws l) EmptyString) plines) /\
  (Exists (fun l => (List.length (py_split_ws l) < 2)%nat) plines ->
     list_printers system win32 powershell (RunOk out) = []) /\
  (forall n, In n (list_printers system win32 powershell (RunOk out)) ->
     n <> EmptyString /\ forall c, In c (list_ascii_of_string n) -> py_isspace c = false).
Proof.
  intros Hs plines. rewrite (list_printers_unix_eq system win32 powershell (RunOk out) Hs).
  unfold _list_unix_printers. split; [| split].
  - intros H. rewrite (lpstat_good _ H). reflexivity.
  - intros H. rewrite (lpstat_bad _ H). reflexivity.
  - destruct (lpstat_printers (py_split "010" out)) as [ps |] eqn:E; [| intros n []].
    exact (lpstat_names _ ps E).
Qed.

(** Witness of [X14]: two printers listed by [lpstat -p] on Linux. *)
Lemma list_printers_unix_witness :
  let out := "printer office is idle.
printer lab disabled
scheduler is running"%string in
  let plines := filter (fun l => String.prefix "printer " l) (py_split "010" out) in
  (Forall (fun l => (2 <= List.length (py_split_ws l))%nat) plines ->
     list_printers "Linux" None (RunOk "") (RunOk out)
     = map (fun l => nth 1 (py_split_ws l) EmptyString) plines) /\
  (Exists (fun l => (List.length (py_split_ws l) < 2)%nat) plines ->
     list_printers "Linux" None (RunOk "") (RunOk out) = []) /\
  (forall n, In n (list_printers "Linux" None (RunOk "") (RunOk out)) ->
     n <> EmptyString /\ forall c, In c (list_ascii_of_string n) -> py_isspace c = false).
Proof.
  intros out. apply (list_printers_unix "Linux" None (RunOk "") out). left. reflexivity.
Defined.

(** ** The default printer *)

Lemma lstrip_suffix (l : list ascii) : exists pre, l = (pre ++ lstrip_chars l)%list.
Proof.
  induction l as [| c l [pre IH]]; [exists []; reflexivity |]. cbn [lstrip_chars].
  destruct (py_isspace c); [exists (c :: pre); rewrite IH at 1; reflexivity |].
  exists []. reflexivity.
Qed.

Lemma lstrip_head (l r : list ascii) (c : ascii) :
  lstrip_chars l = c :: r -> py_isspace c = false.
Proof.
  induction l as [| a l IH]; cbn [lstrip_chars]; [discriminate |].
  destruct (py_isspace a) eqn:Ea; [exact IH |]. intros H. injection H as <- _. exact Ea.
Qed.

Lemma strip_props (s : string) :
  let r := list_ascii_of_string (py_strip s) in
  (forall c, In c r -> In c (list_ascii_of_string s)) /\
  (forall c rest, r = c :: rest -> py_isspace c = false) /\
  (forall pre c, r = (pre ++ [c])%list -> py_isspace c = false).
Proof.
  intros r. unfold r, py_strip. rewrite list_ascii_of_string_of_list_ascii.
  set (L := list_ascii_of_string s).
  set (M := lstrip_chars L). set (N := lstrip_chars (rev M)).
  destruct (lstrip_suffix L) as [pre1 E1]. fold M in E1.
  destruct (lstrip_suffix (rev M)) as [pre2 E2]. fold N in E2.
  split; [| split].
  - intros c Hc. apply in_rev in Hc.
    assert (Hm : In c M).
    { apply in_rev. rewrite E2. apply in_app_iff. right. exact Hc. }
    rewrite E1. apply in_app_iff. right. exact Hm.
  - intros c rest H.
    assert (EM : M = (rev N ++ rev pre2)%list).
    { rewrite <- rev_app_distr, <- E2, rev_involutive. reflexivity. }
    apply (lstrip_head L (rest ++ rev pre2) c). fold M. rewrite EM, H. reflexivity.
  - intros pre c H.
    assert (EN : N = c :: rev pre).
    { rewrite <- (rev_involutive N), H, rev_app_distr. reflexivity. }
    exact (lstrip_head (rev M) (rev pre) c EN).
Qed.






(** ** Printer status *)

(** [X16] When [check_printer_status] returns a status, that status carries
    the queried name and is one of [disabled], [idle], [unknown] or
    [not found]. The printer is unavailable exactly for [disabled] and
    [not found]. [idle] needs [lpstat] to succeed with an output that, once
    lower-cased, contains [idle] but not [disabled]. A system other than
    Darwin or Linux is always [unknown] and available. *)
Theorem check_printer_status_spec (system : string) (lpstat : run_result)
        (name : string) (st : PrinterStatus) :
  check_printer_status system lpstat name = inl st ->
  status_name st = name /\
  In (status st) ["disabled"; "idle"; "unknown"; "not found"]%string /\
  (status_available st = false <->
     status st = "disabled"%string \/ status st = "not found"%string) /\
  (status st = "idle"%string ->
     exists out, lpstat = RunOk out /\ py_contains "disabled" (py_lower out) = false /\
                 py_contains "idle" (py_lower out) = true) /\
  (system <> "Darwin"%string -> system <> "Linux"%string ->
     status_available st = true /\ status st = "unknown"%string).
Proof.
  unfold check_printer_status. intros H.
  destruct (String.eqb system "Darwin" || String.eqb system "Linux") eqn:Es.
  - assert (Hs : system = "Darwin"%string \/ system = "Linux"%string).
    { apply orb_true_iff in Es. destruct Es as [E | E]; apply String.eqb_eq in E; tauto. }
    destruct lpstat as [out | e | e]; [| | discriminate H].
    + destruct (py_contains "disabled" (py_lower out)) eqn:Ed;
        [| destruct (py_contains "idle" (py_lower out)) eqn:Ei];
        injection H as <-; cbn [status_name status status_available];
        (split; [reflexivity |]); (split; [simpl; tauto |]);
        (split; [split; [intros E; discriminate E || tauto |
                         intros [E | E]; discriminate E || reflexivity] |]);
        (split; [intros E; discriminate E || (exists out; tauto) |]);
        intros N1 N2; exfalso; destruct Hs; contradiction.
    + injection H as <-. cbn [status_name status status_available].
      (split; [reflexivity |]); (split; [simpl; tauto |]).
      split; [split; [intros _; right; reflexivity | intros _; reflexivity] |].
      split; [discriminate |]. intros N1 N2; exfalso; destruct Hs; contradiction.
  - injection H as <-. cbn [status_name status status_available].
    (split; [reflexivity |]); (split; [simpl; tauto |]).
    split; [split; [discriminate | intros [E | E]; discriminate E] |].
    split; [discriminate |]. intros _ _. split; reflexivity.
Qed.

(** Witness of [X16]: an idle printer on Linux. *)
Lemma check_printer_status_spec_witness :
  let lp := RunOk "printer office is idle.  enabled since Mon"%string in
  check_printer_status "Linux" lp "office" =
    inl {| status_name := "office"; status_available := true; status := "idle" |} /\
  let st := {| status_name := "office"; status_available := true; status := "idle" |} in
  status_name st = "office"%string /\
  In (status st) ["disabled"; "idle"; "unknown"; "not found"]%string /\
  (status_available st = false <->
     status st = "disabled"%string \/ status st = "not found"%string) /\
  (status st = "idle"%string ->
     exists out, lp = RunOk out /\ py_contains "disabled" (py_lower out) = false /\
                 py_contains "idle" (py_lower out) = true) /\
  ("Linux"%string <> "Darwin"%string -> "Linux"%string <> "Linux"%string ->
     status_available st = true /\ status st = "unknown"%string).
Proof.
  intros lp.
  assert (E : check_printer_status "Linux" lp "office" =
    inl {| status_name := "office"; status_available := true; status := "idle" |})
    by (vm_compute; reflexivity).
  split; [exact E |]. intros st.
  exact (check_printer_status_spec "Linux" lp "office" st E).
Defined.

(** ** Cleanup of temporary files *)

Lemma path_eqb_refl (p : path) : path_eqb p p = true.
Proof. unfold path_eqb. rewrite !String.eqb_refl. reflexivity. Qed.

Lemma filter_true_id {A : Type} (f : A -> bool) (l : list A) :
  (forall x, In x l -> f x = true) -> filter f l = l.
Proof.
  induction l as [| x l IH]; intros H; simpl; [reflexivity |].
  rewrite (H x (or_introl eq_refl)), IH; [reflexivity |]. intros y Hy. apply H. right. exact Hy.
Qed.

Lemma filter_filter' {A : Type} (f g : A -> bool) (l : list A) :
  filter f (filter g l) = filter (fun x => g x && f x) l.
Proof.
  induction l as [| x l IH]; simpl; [reflexivity |].
  destruct (g x); simpl; [destruct (f x); simpl; rewrite IH |]; reflexivity || exact IH.
Qed.

(** [X17] After [cleanup_temp_files], the storage keeps exactly the paths
    that are not in the file list, or whose removal failed. Paths outside
    the list are never touched, a path listed twice is removed once, and the
    relative order of what is left is unchanged. *)
Theorem cleanup_temp_files_result (unlink_fails : path -> bool) (storage file_list : list path) :
  cleanup_temp_files unlink_fails storage file_list
  = filter (fun q => negb (existsb (path_eqb q) file_list && negb (unlink_fails q))) storage.
Proof.
  revert storage. induction file_list as [| f rest IH]; intros storage; cbn [cleanup_temp_files].
  - symmetry. apply filter_true_id. intros. reflexivity.
  - rewrite IH.
    assert (Hin : forall q, In q storage -> path_eqb q f = true ->
                  q = f /\ existsb (path_eqb f) storage = true).
    { intros q Hq E. apply path_eqb_eq in E. subst. split; [reflexivity |].
      apply existsb_exists. exists f. split; [exact Hq | apply path_eqb_refl]. }
    destruct (existsb (path_eqb f) storage) eqn:Es;
      [destruct (unlink_fails f) eqn:Eu |].
    + apply filter_ext_in. intros q Hq. cbn [existsb].
      destruct (path_eqb q f) eqn:E; [| reflexivity].
      destruct (Hin q Hq E) as [-> _]. rewrite Eu. rewrite !andb_false_r. reflexivity.
    + unfold storage_remove. rewrite filter_filter'. apply filter_ext_in. intros q Hq.
      cbn [existsb]. destruct (path_eqb q f) eqn:E; [| reflexivity].
      destruct (Hin q Hq E) as [-> _]. rewrite Eu. reflexivity.
    + apply filter_ext_in. intros q Hq. cbn [existsb].
      destruct (path_eqb q f) eqn:E; [| reflexivity].
      destruct (Hin q Hq E) as [_ H]. congruence.
Qed.

(** ** Conflict resolution is idempotent *)

Lemma handle_conflicts_all_free (exists_ : path -> bool) (fuel : nat) (outs : list path) :
  (forall q, In q outs -> exists_ q = false) ->
  handle_filename_conflicts exists_ fuel outs = Some outs.
Proof.
  induction outs as [| p outs IH]; intros H; [reflexivity |].
  cbn [handle_filename_conflicts]. destruct fuel; cbn [resolve_loop];
    rewrite (H p (or_introl eq_refl));
    rewrite IH by (intros q Hq; apply H; right; exact Hq); reflexivity.
Qed.

(** [X18] [handle_filename_conflicts] keeps a list of names none of which
    exists, with any fuel. So applying it again to its own result, with the
    storage unchanged, gives the same names back. *)
Theorem handle_filename_conflicts_fixpoint (exists_ : path -> bool) (fuel fuel' : nat)
        (outs : list path) :
  ((forall q, In q outs -> exists_ q = false) ->
     handle_filename_conflicts exists_ fuel outs = Some outs) /\
  (forall rs, handle_filename_conflicts exists_ fuel outs = Some rs ->
     handle_filename_conflicts exists_ fuel' rs = Some rs).
Proof.
  split; [apply handle_conflicts_all_free |].
  intros rs H. apply handle_conflicts_all_free. exact (handle_conflicts_free exists_ fuel outs rs H).
Qed.

(** ** Printing on Windows *)

(** [X19] On Windows, [print_file] never uses the print options. Without
    [win32api], in the PowerShell fallback, it ignores the printer name
    too. With [win32api] it runs no command. *)
Theorem print_file_windows (file_exists : path -> bool) (run : list string -> run_result)
        (win32_available : bool) (win32_error : option string) (fp : path)
        (pn pn' : option string) (po po' : list (string * string)) :
  print_file "Windows" file_exists run win32_available win32_error fp pn po
  = print_file "Windows" file_exists run win32_available win32_error fp pn po' /\
  (win32_available = false ->
     print_file "Windows" file_exists run win32_available win32_error fp pn po
     = print_file "Windows" file_exists run win32_available win32_error fp pn' po') /\
  (win32_available = true ->
     snd (print_file "Windows" file_exists run win32_available win32_error fp pn po) = []).
Proof.
  unfold print_file. destruct (file_exists fp); cbn [negb];
    [| split; [reflexivity | split; intros; reflexivity]].
  destruct (String.eqb (py_lower (path_suffix fp)) ".pdf"); cbn [negb];
    [| split; [reflexivity | split; intros; reflexivity]].
  cbn [String.eqb Ascii.eqb Bool.eqb andb]. unfold _print_windows.
  split; [reflexivity |].
  split; intros ->; [reflexivity |]. destruct win32_error; reflexivity.
Qed.

(** ** Listing printers on Windows *)

(** [X20] On Windows, [list_printers] returns [EnumPrinters]' names as they
    are. In the PowerShell fallback it returns the stripped non-blank lines
    of the output, which are non-empty and have no whitespace at either
    end. A failed PowerShell command gives no printers. *)
Theorem list_printers_windows (win32 : option (list string)) (powershell lpstat_p : run_result) :
  (forall names, win32 = Some names ->
     list_printers "Windows" win32 powershell lpstat_p = names) /\
  (win32 = None -> forall out, powershell = RunOk out ->
     list_printers "Windows" win32 powershell lpstat_p
     = map py_strip (filter (fun line => negb (String.eqb (py_strip line) ""))
                            (py_split "010" out)) /\
     forall n, In n (list_printers "Windows" win32 powershell lpstat_p) ->
       n <> EmptyString /\
       (forall c rest, list_ascii_of_string n = c :: rest -> py_isspace c = false) /\
       (forall pre c, list_ascii_of_string n = (pre ++ [c])%list -> py_isspace c = false)) /\
  (win32 = None -> forall e, powershell = RunCalledProcessError e ->
     list_printers "Windows" win32 powershell lpstat_p = []).
Proof.
  unfold list_printers. cbn [String.eqb Ascii.eqb Bool.eqb andb].
  split; [intros names ->; reflexivity |]. split.
  - intros -> out ->. cbn [_list_windows_printers]. split; [reflexivity |].
    intros n Hn. apply in_map_iff in Hn as (line & <- & Hl).
    apply filter_In in Hl as [_ Hne].
    destruct (strip_props line) as [_ [Hh Hlst]].
    split; [| split; [exact Hh | exact Hlst]].
    intros E. rewrite E in Hne. discriminate Hne.
  - intros -> e ->. reflexivity.
Qed.

(** ** The default printer *)

(** [X21] [get_default_printer] gives [None] on a system other than
    Windows, Darwin or Linux, and uses [lpstat -d] on Darwin and Linux. On
    Windows without [win32print], a successful PowerShell command gives its
    stripped output, even when that output is blank; a failing command or
    an exception from [GetDefaultPrinter] gives [None]. *)
Theorem get_default_printer_cases (system : string) (win32 : option (string + string))
        (powershell lpstat_d : run_result) :
  (~ In system ["Windows"; "Darwin"; "Linux"]%string ->
     get_default_printer system win32 powershell lpstat_d = None) /\
  ((system = "Darwin"%string \/ system = "Linux"%string) ->
     get_default_printer system win32 powershell lpstat_d = _get_unix_default_printer lpstat_d) /\
  (win32 = None -> forall out, powershell = RunOk out ->
     get_default_printer "Windows" win32 powershell lpstat_d = Some (py_strip out)) /\
  (win32 = None -> forall e, powershell = RunCalledProcessError e ->
     get_default_printer "Windows" win32 powershell lpstat_d = None) /\
  (forall e, win32 = Some (inr e) -> get_default_printer "Windows" win32 powershell lpstat_d = None).
Proof.
  split; [| split; [| split; [| split]]].
  - intros H. unfold get_default_printer.
    destruct (String.eqb system "Windows") eqn:E1;
      [apply String.eqb_eq in E1; subst; exfalso; apply H; simpl; tauto |].
    destruct (String.eqb system "Darwin") eqn:E2;
      [apply String.eqb_eq in E2; subst; exfalso; apply H; simpl; tauto |].
    destruct (String.eqb system "Linux") eqn:E3;
      [apply String.eqb_eq in E3; subst; exfalso; apply H; simpl; tauto |].
    reflexivity.
  - intros [-> | ->]; reflexivity.
  - intros -> out ->. reflexivity.
  - intros -> e ->. reflexivity.
  - intros e ->. reflexivity.
Qed.

(** ** Split information outside the validated range *)

(** [X22] When [pages_per_split] is at least the page count of a non-empty
    document, [calculate_split_info] describes a single part holding the
    whole document: one split, range [(1, total_pages)], and
    [last_split_pages = total_pages]. *)
Theorem calculate_split_info_single (s : PDFSplitter) (pages_per_split : Z) :
  0 < total_pages s <= pages_per_split ->
  calculate_split_info s pages_per_split
  = Some {| info_total_pages := total_pages s; info_pages_per_split := pages_per_split;
            num_splits := 1; last_split_pages := total_pages s;
            ranges := [(1, total_pages s)] |}.
Proof.
  intros H. unfold calculate_split_info, _get_page_ranges, py_range, py_range_len.
  set (T := total_pages s) in *.
  assert (Hz : (pages_per_split =? 0) = false) by (apply Z.eqb_neq; lia).
  assert (Hpos : (0 <? pages_per_split) = true) by (apply Z.ltb_lt; lia).
  assert (Hq : (T + pages_per_split - 1) / pages_per_split = 1).
  { symmetry. apply Z.div_unique with (r := T - 1); lia. }
  assert (Hq' : (T - 0 + pages_per_split - 1) / pages_per_split = 1)
    by (rewrite Z.sub_0_r; exact Hq).
  assert (Hl : (if T mod pages_per_split =? 0 then pages_per_split else T mod pages_per_split) = T).
  { destruct (Z.eq_dec T pages_per_split) as [E | E].
    - rewrite E, Z.mod_same by lia. reflexivity.
    - rewrite Z.mod_small by lia. destruct (T =? 0) eqn:E0; [apply Z.eqb_eq in E0; lia | reflexivity]. }
  rewrite Hz, Hpos, Hq, Hq', Hl. simpl. do 5 f_equal. lia.
Qed.

(** Witness of [X22]: five pages split by eight. *)
Lemma calculate_split_info_single_witness :
  let s := {| input_file := "doc.pdf"; reader := None; total_pages := 5 |} in
  0 < total_pages s <= 8 /\
  calculate_split_info s 8
  = Some {| info_total_pages := total_pages s; info_pages_per_split := 8;
            num_splits := 1; last_split_pages := total_pages s;
            ranges := [(1, total_pages s)] |}.
Proof.
  intros s. split; [simpl; lia |]. apply calculate_split_info_single. simpl. lia.
Defined.

(** [X23] For a negative [pages_per_split] and a non-empty document, both
    range computations give no range, while [num_splits] is at most 1. It
    is exactly 1 for a one-page document, and then
    [generate_output_filenames] gives one name for zero ranges. *)
Theorem negative_split_size (s : PDFSplitter) (pages_per_split : Z) (fm : FileManager) :
  pages_per_split < 0 -> 0 < total_pages s ->
  _get_page_ranges s pages_per_split = Some [] /\
  get_split_ranges (total_pages s) pages_per_split = Some [] /\
  exists info, calculate_split_info s pages_per_split = Some info /\ ranges info = [] /\
    num_splits info <= 1 /\
    (total_pages s = 1 -> num_splits info = 1 /\
       exists names, generate_output_filenames fm (total_pages s) pages_per_split = Some names /\
                     List.length names = 1%nat).
Proof.
  intros Hp HT.
  assert (Hz : (pages_per_split =? 0) = false) by (apply Z.eqb_neq; lia).
  assert (Hlen : py_range_len 0 (total_pages s) pages_per_split = 0).
  { unfold py_range_len.
    destruct (0 <? pages_per_split) eqn:E; [apply Z.ltb_lt in E; lia |].
    assert ((0 - total_pages s - pages_per_split - 1) / - pages_per_split < 1)
      by (apply Z.div_lt_upper_bound; lia).
    lia. }
  assert (Hr : py_range 0 (total_pages s) pages_per_split = Some []).
  { unfold py_range. rewrite Hz, Hlen. reflexivity. }
  assert (Hg : _get_page_ranges s pages_per_split = Some [])
    by (unfold _get_page_ranges; rewrite Hr; reflexivity).
  split; [exact Hg |]. split; [unfold get_split_ranges; rewrite Hr; reflexivity |].
  assert (Hn : (total_pages s + pages_per_split - 1) / pages_per_split <= 1).
  { rewrite <- Z.div_opp_opp by lia.
    apply Z.le_trans with ((- pages_per_split) / (- pages_per_split));
      [apply Z.div_le_mono; lia | rewrite Z.div_same; lia]. }
  unfold calculate_split_info. rewrite Hz, Hg.
  eexists. split; [reflexivity |]. cbn [ranges num_splits].
  split; [reflexivity |]. split; [exact Hn |].
  intros H1. rewrite H1.
  assert (Hone : (1 + pages_per_split - 1) / pages_per_split = 1).
  { replace (1 + pages_per_split - 1) with pages_per_split by lia. apply Z.div_same. lia. }
  split; [exact Hone |].
  unfold generate_output_filenames. rewrite Hz, Hone.
  eexists. split; [reflexivity |]. reflexivity.
Qed.

(** Witness of [X23]: a one-page document split by [-3]. *)
Lemma negative_split_size_witness :
  let s := {| input_file := "one.pdf"; reader := None; total_pages := 1 |} in
  let fm := {| output_dir := "out"; base_name := "one" |} in
  (-3 < 0 /\ 0 < total_pages s) /\
  (_get_page_ranges s (-3) = Some [] /\
   get_split_ranges (total_pages s) (-3) = Some [] /\
   exists info, calculate_split_info s (-3) = Some info /\ ranges info = [] /\
     num_splits info <= 1 /\
     (total_pages s = 1 -> num_splits info = 1 /\
        exists names, generate_output_filenames fm (total_pages s) (-3) = Some names /\
                      List.length names = 1%nat)).
Proof.
  intros s fm. split; [simpl; lia |].
  apply negative_split_size; simpl; lia.
Defined.

(** ** Validation of the input file *)

(** [X24] [validate_input] accepts exactly an existing regular file. A
    suffix other than [.pdf] (in any letter case) never makes it fail: it
    only prints a warning. A missing file is reported before the file-type
    check. *)
Theorem validate_input_spec (input_exists input_is_file : bool) (input_file : path) :
  fst (validate_input input_exists input_is_file input_file) = input_exists && input_is_file /\
  (fst (validate_input input_exists input_is_file input_file) = true ->
     (snd (validate_input input_exists input_is_file input_file) = [] <->
      py_lower (path_suffix input_file) = ".pdf"%string)) /\
  (input_exists = false ->
     snd (validate_input input_exists input_is_file input_file)
     = [("Error: Input file '" ++ path_str input_file ++ "' does not exist.")%string]).
Proof.
  unfold validate_input. destruct input_exists; cbn [negb andb];
    [| split; [reflexivity | split; [discriminate | reflexivity]]].
  destruct input_is_file; cbn [negb];
    [| split; [reflexivity | split; [discriminate | discriminate]]].
  destruct (String.eqb (py_lower (path_suffix input_file)) ".pdf") eqn:E; cbn [negb fst snd].
  - apply String.eqb_eq in E. split; [reflexivity | split; [| discriminate]].
    intros _. split; [intros _; exact E | reflexivity].
  - apply String.eqb_neq in E. split; [reflexivity | split; [| discriminate]].
    intros _. split; [discriminate | intros H; contradiction].
Qed.

(** ** Listing the printers from the command line *)

Lemma nth_numbered (f : nat * string -> string) (l : list string) (k i : nat) :
  (i < List.length l)%nat ->
  nth i (map f (combine (seq k (List.length l)) l)) EmptyString = f (k + i, nth i l EmptyString)%nat.
Proof.
  revert k i. induction l as [| x l IH]; intros k i Hi; cbn [List.length] in Hi; [lia |].
  cbn [List.length seq combine map].
  destruct i as [| i]; cbn [nth].
  - rewrite Nat.add_0_r. reflexivity.
  - rewrite IH by lia. f_equal. f_equal. lia.
Qed.

(** [X25] [print_available_printers] with no printer prints the system and
    one message, and shows neither a default printer nor the options help.
    Otherwise it prints one numbered line per printer, from 1, in the order
    listed. That makes [n + 10] lines, one more when a non-empty default
    printer is known. *)
Theorem print_available_printers_spec (system : string) (printers : list string)
        (default_printer : option string) :
  (printers = [] ->
     print_available_printers system printers default_printer
     = [("System: " ++ system)%string; "No printers found or unable to list printers."%string]) /\
  (printers <> [] ->
     List.length (print_available_printers system printers default_printer)
     = (List.length printers + 10 + (if py_truthy_str default_printer then 1 else 0))%nat /\
     forall i, (i < List.length printers)%nat ->
       nth (2 + i) (print_available_printers system printers default_printer) EmptyString
       = ("  " ++ str_nat (i + 1) ++ ". " ++ nth i printers EmptyString)%string).
Proof.
  split; [intros ->; reflexivity |].
  intros Hne. assert (Hl : print_available_printers system printers default_printer
    = (("System: " ++ system)%string ::
       nl ("Available printers (" ++ str_nat (List.length printers) ++ "):")%string
       :: map (fun ip => "  " ++ str_nat (fst ip) ++ ". " ++ snd ip)%string
              (combine (seq 1 (List.length printers)) printers)
       ++ match default_printer with
          | Some d => if String.eqb d "" then [] else [nl ("Default printer: " ++ d)%string]
          | None => []
          end
       ++ nl "Print options (use with --print-options):"
       :: map (fun kd => "  " ++ fst kd ++ ": " ++ snd kd)%string get_print_options_help)%list).
  { unfold print_available_printers. destruct printers; [contradiction | reflexivity]. }
  rewrite Hl. split.
  - cbn [List.length]. rewrite !length_app, length_map, length_combine, length_seq.
    cbn [List.length]. rewrite length_map.
    destruct default_printer as [d |]; cbn [py_truthy_str];
      [destruct (String.eqb d "") | ]; cbn [negb List.length get_print_options_help]; lia.
  - intros i Hi. change (2 + i)%nat with (S (S i)). cbn [nth].
    rewrite app_nth1 by (rewrite length_map, length_combine, length_seq; lia).
    rewrite (nth_numbered (fun ip => "  " ++ str_nat (fst ip) ++ ". " ++ snd ip)%string
               printers 1 i Hi).
    cbn [fst snd]. rewrite Nat.add_comm. reflexivity.
Qed.

(** Witness of [X25]: two printers and a default one. *)
Lemma print_available_printers_spec_witness :
  let printers := ["office"; "lab"]%string in
  printers <> [] /\
  List.length (print_available_printers "Linux" printers (Some "office"%string))
  = (List.length printers + 10 + (if py_truthy_str (Some "office"%string) then 1 else 0))%nat /\
  (forall i, (i < List.length printers)%nat ->
     nth (2 + i) (print_available_printers "Linux" printers (Some "office"%string)) EmptyString
     = ("  " ++ str_nat (i + 1) ++ ". " ++ nth i printers EmptyString)%string).
Proof.
  intros printers. split; [discriminate |].
  apply (proj2 (print_available_printers_spec "Linux" printers (Some "office"%string))).
  discriminate.
Defined.
